(** * website_finder: brand name to official website resolution

    A shallow embedding of [website_finder.py]: the domain heuristic
    [_looks_official], the three source adapters [fetch_wikidata_site],
    [fetch_wikipedia_site] and [fetch_duckduckgo_site], and the resolver
    [get_website], followed by the properties established about them.

    Conventions of the model.
    - A Python [str] is a Rocq [string]; a character is a code point
      below 256.  On such text [str.lower], [str.strip] and
      [urllib.parse.urlparse] behave as written below.
    - A Python call that can raise is a value of [outcome]; a function
      that talks to the network is a computation of [M], which also
      keeps the requests it issued, in order.
    - What the remote services answer is a parameter ([World]); request
      headers, time-outs and the debugging output of the adapters are
      left out.
    - The batch driver [main] and [send_csv_to_discord] are runs of [Run]
      on a machine ([Host]): command line, files, environment, the reply
      of Discord and the order in which a set is listed are its
      parameters. *)

From Stdlib Require Import String Ascii List Bool Arith Lia DecimalString.
Import ListNotations.
Open Scope string_scope.
Open Scope list_scope.
Open Scope nat_scope.

Local Set Warnings "-register-all".

(* ================================================================= *)
(** ** Python strings *)

Module PyStr.

Definition code (c : ascii) : nat := nat_of_ascii c.

Definition in_range (lo hi : nat) (c : ascii) : bool :=
  (lo <=? code c) && (code c <=? hi).

(** [c.isascii() and c.isalpha()] *)
Definition is_ascii_alpha (c : ascii) : bool :=
  in_range 65 90 c || in_range 97 122 c.

Definition is_digit (c : ascii) : bool := in_range 48 57 c.

(** [str.isspace] on one code point below 256. *)
Definition is_space (c : ascii) : bool :=
  in_range 9 13 c || in_range 28 32 c
  || (code c =? 133) || (code c =? 160).

(** [str.lower] on one code point below 256: A-Z, and the Latin-1
    capitals U+00C0..U+00DE except the multiplication sign. *)
Definition lower_char (c : ascii) : ascii :=
  if in_range 65 90 c
     || (in_range 192 222 c && negb (code c =? 215))
  then ascii_of_nat (code c + 32)
  else c.

Fixpoint lower (s : string) : string :=
  match s with
  | EmptyString => EmptyString
  | String c s' => String (lower_char c) (lower s')
  end.

Fixpoint filter (p : ascii -> bool) (s : string) : string :=
  match s with
  | EmptyString => EmptyString
  | String c s' => if p c then String c (filter p s') else filter p s'
  end.

Fixpoint forallb (p : ascii -> bool) (s : string) : bool :=
  match s with
  | EmptyString => true
  | String c s' => p c && forallb p s'
  end.

(** [c in s] for a single character [c]. *)
Fixpoint mem (c : ascii) (s : string) : bool :=
  match s with
  | EmptyString => false
  | String d s' => Ascii.eqb c d || mem c s'
  end.

(** [s[:n]] *)
Fixpoint take (n : nat) (s : string) : string :=
  match n, s with
  | S n', String c s' => String c (take n' s')
  | _, _ => EmptyString
  end.

(** [s[n:]] *)
Fixpoint drop (n : nat) (s : string) : string :=
  match n, s with
  | S n', String _ s' => drop n' s'
  | _, _ => s
  end.

(** [s.startswith(p)] *)
Fixpoint startswith (s p : string) {struct p} : bool :=
  match p, s with
  | EmptyString, _ => true
  | String a p', String b s' => Ascii.eqb a b && startswith s' p'
  | String _ _, EmptyString => false
  end.

(** [s.endswith(p)] *)
Definition endswith (s p : string) : bool :=
  (String.length p <=? String.length s)
  && String.eqb (drop (String.length s - String.length p) s) p.

(** [sub in s] *)
Fixpoint contains (sub s : string) : bool :=
  startswith s sub
  || match s with
     | EmptyString => false
     | String _ s' => contains sub s'
     end.

(** [s.find(c)] for a single character: the first index, if any. *)
Fixpoint find (c : ascii) (s : string) : option nat :=
  match s with
  | EmptyString => None
  | String d s' =>
      if Ascii.eqb c d then Some 0
      else option_map S (find c s')
  end.

(** [s.lstrip(chars)] with the set of characters given as a predicate. *)
Fixpoint lstrip (p : ascii -> bool) (s : string) : string :=
  match s with
  | EmptyString => EmptyString
  | String c s' => if p c then lstrip p s' else s
  end.

Fixpoint rev_onto (s acc : string) : string :=
  match s with
  | EmptyString => acc
  | String c s' => rev_onto s' (String c acc)
  end.

Definition rev (s : string) : string := rev_onto s EmptyString.

Definition rstrip (p : ascii -> bool) (s : string) : string :=
  rev (lstrip p (rev s)).

(** [s.strip()] *)
Definition strip (s : string) : string :=
  rstrip is_space (lstrip is_space s).

End PyStr.

(* ================================================================= *)
(** ** Exceptions *)

(** The exceptions that occur in the modelled code; all of them are
    subclasses of Python's [Exception]. *)
Inductive exn : Type :=
| ValueError (msg : string)
| ProviderError (msg : string).

Inductive outcome (A : Type) : Type :=
| Return (a : A)
| Raise (e : exn).

Arguments Return {A} a.
Arguments Raise {A} e.

Definition obind {A B : Type} (m : outcome A) (f : A -> outcome B) : outcome B :=
  match m with
  | Return a => f a
  | Raise e => Raise e
  end.

(* ================================================================= *)
(** ** Parsed HTML, as BeautifulSoup presents it *)

(** The subclasses of [NavigableString] that the parser gives to strings
    which are not ordinary text: character data sections, comments and
    declarations, and the strings below [style], [script], [template], [rt]
    and [rp] tags. *)
Inductive string_class : Type :=
| CData
| Comment
| Declaration
| Doctype
| ProcessingInstruction
| Stylesheet
| Script
| TemplateString
| RubyTextString
| RubyParenthesisString.

(** A page element: a run of ordinary text, a string of one of the classes
    above, or a tag with its name, the members of its [class] attribute, its
    other attributes and its contents.  The tree is the one the parser
    built, so every string carries the class the parser gave it. *)
Inductive node : Type :=
| NavigableString (s : string)
| SpecialString (cls : string_class) (s : string)
| Tag (name : string) (class_ : list string)
      (attrs : list (string * string)) (contents : list node).

(* ================================================================= *)
(** ** Requests, remote services and computations *)

Inductive event : Type :=
| WikidataRequest (query : string)
| WikipediaSearchRequest (srsearch : string)
| WikipediaParseRequest (pageid : nat)
| DuckDuckGoRequest (query : string).

(** The adapter an [event] belongs to. *)
Inductive source : Type := Wikidata | Wikipedia | DuckDuckGo.

(** What the remote services answer.  Each field is the value the code
    extracts from a well-formed reply, or the exception raised on the way
    (connection failure, time-out, error status, malformed payload):
    - [wikidata_reply q]: the [website] values of [results.bindings];
    - [wikipedia_search_reply n]: the page ids of [query.search];
    - [wikipedia_parse_reply id]: the parsed markup of the page;
    - [ddgs_reply q]: the [href] of each search result, in rank order. *)
Record World : Type := {
  wikidata_reply : string -> outcome (list string);
  wikipedia_search_reply : string -> outcome (list nat);
  wikipedia_parse_reply : nat -> outcome node;
  ddgs_reply : string -> outcome (list string)
}.

(** A computation returns or raises, and leaves the requests it made. *)
Definition M (A : Type) : Type := (outcome A * list event)%type.

Definition ret {A : Type} (a : A) : M A := (Return a, []).

Definition bind {A B : Type} (m : M A) (f : A -> M B) : M B :=
  match m with
  | (Return a, t) => let (r, t') := f a in (r, t ++ t')
  | (Raise e, t) => (Raise e, t)
  end.

(** [try: m except Exception as e: h e] *)
Definition try_except {A : Type} (m : M A) (h : exn -> M A) : M A :=
  match m with
  | (Return a, t) => (Return a, t)
  | (Raise e, t) => let (r, t') := h e in (r, t ++ t')
  end.

Definition request {A : Type} (ev : event) (reply : outcome A) : M A :=
  (reply, [ev]).

Definition lift {A : Type} (o : outcome A) : M A := (o, []).

Definition result {A : Type} (m : M A) : outcome A := fst m.
Definition trace {A : Type} (m : M A) : list event := snd m.

Notation "x <- m ;; k" := (bind m (fun x => k))
  (at level 61, m at next level, right associativity).

(* ================================================================= *)
(** ** The batch script and its surroundings *)

(** What a run of the script does to the outside, in order.  [Print] is a
    line of [main] or of [send_csv_to_discord] on standard output; the
    debugging lines of the adapters are not recorded. *)
Inductive action : Type :=
| Ask (ev : event)
| ReadLines (path : string)
| OpenOutput (path : string)
| WriteRow (row : list string)
| Print (line : string)
| Sleep (seconds : nat)
| OpenUpload (path : string)
| Post (url path content : string).

(** How a run ends before its last statement. *)
Inductive failure : Type :=
| SystemExit (code : nat)
| OSError (msg : string)
| Uncaught (e : exn).

(** The machine the script runs on:
    - [argv]: [sys.argv];
    - [read_lines p]: the lines of the text file [p], each with its line
      end, or the message of the error of [open];
    - [open_output p], [open_upload p]: whether [p] opens for writing, and
      for reading in binary mode;
    - [getenv]: [os.getenv];
    - [discord_reply url p]: status code and text of the reply to the
      upload, or the exception of [requests.post];
    - [list_of_set l]: the order in which [list(set(l))] lists the members
      of [l].
    A file that opened is taken to be read and written without error. *)
Record Host : Type := {
  argv : list string;
  read_lines : string -> list string + string;
  open_output : string -> unit + string;
  open_upload : string -> unit + string;
  getenv : string -> option string;
  discord_reply : string -> string -> outcome (nat * string);
  list_of_set : list string -> list string
}.

(** A run returns or fails, and leaves its actions. *)
Definition Run (A : Type) : Type := ((A + failure) * list action)%type.

Definition done {A : Type} (a : A) : Run A := (inl a, []).

Definition stop {A : Type} (f : failure) : Run A := (inr f, []).

Definition act (a : action) : Run unit := (inl tt, [a]).

Definition and_then {A B : Type} (m : Run A) (f : A -> Run B) : Run B :=
  match m with
  | (inl a, t) => let (r, t') := f a in (r, t ++ t')
  | (inr e, t) => (inr e, t)
  end.

(** An action of the operating system that may fail with an [OSError]. *)
Definition os_call {A : Type} (a : action) (reply : A + string) : Run A :=
  (match reply with inl v => inl v | inr msg => inr (OSError msg) end, [a]).

Notation "x <~ m ;; k" := (and_then m (fun x => k))
  (at level 61, m at next level, right associativity).

Definition outcome_of {A : Type} (r : Run A) : A + failure := fst r.
Definition actions {A : Type} (r : Run A) : list action := snd r.

(** The rows written, the requests made and the seconds slept among a list
    of actions. *)
Definition written (t : list action) : list (list string) :=
  flat_map (fun a => match a with WriteRow row => [row] | _ => [] end) t.

Definition asked (t : list action) : list event :=
  flat_map (fun a => match a with Ask ev => [ev] | _ => [] end) t.

Definition slept (t : list action) : nat :=
  list_sum (map (fun a => match a with Sleep n => n | _ => 0 end) t).

Definition uploads (t : list action) : list action :=
  List.filter (fun a => match a with
                        | OpenUpload _ | Post _ _ _ => true
                        | _ => false
                        end) t.

(* ================================================================= *)
(** ** Sample pages and worlds used in the examples below *)

Module Samples.

Definition link (href text : string) : node :=
  Tag "a" [] [("href", href)] [NavigableString text].

Definition row (header : string) (cell : list node) : node :=
  Tag "tr" [] []
    [ Tag "th" [] [] [NavigableString header];
      Tag "td" [] [] cell ].

(** An infobox with two rows whose header mentions a website: the first
    links to a social network, the second to the brand's own site. *)
Definition two_website_rows : node :=
  Tag "[document]" [] []
    [ Tag "table" ["infobox"; "vcard"] []
        [ row "Founded" [NavigableString "1949"];
          row " Website " [link "https://www.facebook.com/acmetools" "Facebook"];
          row "Official website" [link "https://www.acmetools.com" "acmetools.com"] ] ].

(** One website row whose cell holds a rejected link followed by an
    acceptable one. *)
Definition two_anchors_one_row : node :=
  Tag "[document]" [] []
    [ Tag "table" ["infobox"] []
        [ row "Website"
            [ link "https://www.facebook.com/acmetools" "Facebook";
              link "https://www.acmetools.com" "acmetools.com" ] ] ].

(** A row whose header cell holds a style sheet that mentions a website,
    followed by the text of the header. *)
Definition styled_header : node :=
  Tag "[document]" [] []
    [ Tag "table" ["infobox"] []
        [ Tag "tr" [] []
            [ Tag "th" [] []
                [ Tag "style" [] [] [SpecialString Stylesheet ".website{}"];
                  NavigableString "Type" ];
              Tag "td" [] []
                [link "https://www.acmetools.com" "acmetools.com"] ] ] ].

(** A website row whose cell holds a rejected link and a nested table with
    a website row of its own. *)
Definition nested_table : node :=
  Tag "[document]" [] []
    [ Tag "table" ["infobox"] []
        [ row "Website"
            [ link "https://www.facebook.com/acmetools" "Facebook";
              Tag "table" [] []
                [ row "Website"
                    [link "https://www.acmetools.com" "acmetools.com"] ] ] ] ].

Definition no_reply {A : Type} : outcome (list A) := Return [].

Definition silent : World :=
  {| wikidata_reply := fun _ => no_reply;
     wikipedia_search_reply := fun _ => no_reply;
     wikipedia_parse_reply := fun _ => Raise (ProviderError "no such page");
     ddgs_reply := fun _ => no_reply |}.

(** Nothing but a failing search provider. *)
Definition search_down : World :=
  {| wikidata_reply := fun _ => no_reply;
     wikipedia_search_reply := fun _ => no_reply;
     wikipedia_parse_reply := fun _ => Raise (ProviderError "no such page");
     ddgs_reply := fun _ => Raise (ProviderError "202 Ratelimit") |}.

Definition encyclopedia_only (page : node) : World :=
  {| wikidata_reply := fun _ => no_reply;
     wikipedia_search_reply := fun _ => Return [7];
     wikipedia_parse_reply := fun _ => Return page;
     ddgs_reply := fun _ => no_reply |}.

(** Every source has an answer. *)
Definition all_answer : World :=
  {| wikidata_reply := fun _ => Return ["https://acmetools.com"];
     wikipedia_search_reply := fun _ => Return [7];
     wikipedia_parse_reply := fun _ => Return two_website_rows;
     ddgs_reply := fun _ => Return ["https://www.acmetools.com/us"] |}.

(** The knowledge base answers with an empty string. *)
Definition empty_kb_value : World :=
  {| wikidata_reply := fun _ => Return [EmptyString];
     wikipedia_search_reply := fun _ => Return [7];
     wikipedia_parse_reply := fun _ => Return two_website_rows;
     ddgs_reply := fun _ => no_reply |}.

Definition accept_all (netloc : string) : bool := true.

End Samples.

(* ================================================================= *)
(** ** Sample machines used in the examples below *)

Module BatchSamples.

Definition machine (args lines : list string) (status : nat) : Host :=
  {| argv := args;
     read_lines := fun _ => inl lines;
     open_output := fun _ => inl tt;
     open_upload := fun _ => inl tt;
     getenv := fun _ => None;
     discord_reply := fun _ _ => Return (status, "Unauthorized");
     list_of_set := nodup string_dec |}.

Definition LF : string := String "010"%char EmptyString.

(** Two names, one of them twice, and a blank line. *)
Definition brands_txt : list string :=
  [ ("  Sephora " ++ LF)%string;
    ("   " ++ LF)%string;
    ("Acme Tools" ++ LF)%string;
    "Sephora" ].

(** A machine whose input file does not exist. *)
Definition missing_input : Host :=
  {| argv := ["website_finder.py"; "brands.txt"; "output.csv"];
     read_lines := fun _ => inr "No such file or directory";
     open_output := fun _ => inl tt;
     open_upload := fun _ => inl tt;
     getenv := fun _ => None;
     discord_reply := fun _ _ => Return (204, EmptyString);
     list_of_set := nodup string_dec |}.

(** Only the web search answers, with the given results. *)
Definition search_results (results : list string) : World :=
  {| wikidata_reply := fun _ => Return [];
     wikipedia_search_reply := fun _ => Return [];
     wikipedia_parse_reply := fun _ => Raise (ProviderError "no such page");
     ddgs_reply := fun _ => Return results |}.

Definition args : list string :=
  ["website_finder.py"; "brands.txt"; "output.csv"].

(** The knowledge base has nothing on Sephora, the encyclopedia nothing at
    all, and the web search is down. *)
Definition search_down_after_acme : World :=
  {| wikidata_reply := fun q =>
       if PyStr.contains "Acme" q then Return ["https://acmetools.com"]
       else Return [];
     wikipedia_search_reply := fun _ => Return [];
     wikipedia_parse_reply := fun _ => Raise (ProviderError "no such page");
     ddgs_reply := fun _ => Raise (ProviderError "202 Ratelimit") |}.

End BatchSamples.

(* ================================================================= *)
(** ** [urllib.parse.urlparse(url).netloc] *)

Section Model.

(** The library's validation of a bracketed host ([_check_bracketed_netloc]:
    an IPv6 or IPvFuture literal in the right place); [false] stands for
    its [ValueError].  The model keeps the class of that exception, not the
    wording of its message, which varies with the refused host. *)
Variable check_bracketed_netloc : string -> bool.

Definition is_c0_control_or_space (c : ascii) : bool :=
  PyStr.code c <=? 32.

(** The characters of [_UNSAFE_URL_BYTES_TO_REMOVE]. *)
Definition is_unsafe_url_byte (c : ascii) : bool :=
  (PyStr.code c =? 9) || (PyStr.code c =? 13) || (PyStr.code c =? 10).

Definition is_scheme_char (c : ascii) : bool :=
  PyStr.is_ascii_alpha c || PyStr.is_digit c
  || PyStr.mem c "+-.".

Definition head_is_alpha (s : string) : bool :=
  match s with
  | EmptyString => false
  | String c _ => PyStr.is_ascii_alpha c
  end.

(** The part of [urlsplit] that removes a leading [scheme:]. *)
Definition strip_scheme (url : string) : string :=
  match PyStr.find ":" url with
  | Some i =>
      if (0 <? i) && head_is_alpha url
         && PyStr.forallb is_scheme_char (PyStr.take i url)
      then PyStr.drop (i + 1) url
      else url
  | None => url
  end.

Definition is_netloc_delim (c : ascii) : bool := PyStr.mem c "/?#".

(** [_splitnetloc(url, 2)[0]] once the two slashes are dropped: the text
    up to the first of [/], [?], [#]. *)
Fixpoint splitnetloc (s : string) : string :=
  match s with
  | EmptyString => EmptyString
  | String c s' =>
      if is_netloc_delim c then EmptyString else String c (splitnetloc s')
  end.

Definition urlparse_netloc (url : string) : outcome string :=
  let url := PyStr.lstrip is_c0_control_or_space url in
  let url := PyStr.filter (fun c => negb (is_unsafe_url_byte c)) url in
  let url := strip_scheme url in
  if String.eqb (PyStr.take 2 url) "//" then
    let netloc := splitnetloc (PyStr.drop 2 url) in
    let has_open := PyStr.mem "[" netloc in
    let has_close := PyStr.mem "]" netloc in
    if (has_open && negb has_close) || (has_close && negb has_open)
    then Raise (ValueError "Invalid IPv6 URL")
    else if has_open && has_close
         then if check_bracketed_netloc netloc
              then Return netloc
              else Raise (ValueError "Invalid IPv6 URL")
         else Return netloc
  else Return EmptyString.

(* =============================================================== *)
(** ** DomainMatcher: [_looks_official] *)

Definition EXCLUDE_DOMAINS : list string :=
  [ "wikipedia.org"; "facebook.com"; "instagram.com"; "youtube.com";
    "twitter.com"; "linkedin.com"; "amazon.com"; "etsy.com";
    "pinterest.com"; "reddit.com"; "sephora.com"; "ulta.com";
    "walmart.com" ].

Definition is_slug_char (c : ascii) : bool :=
  PyStr.in_range 97 122 c || PyStr.is_digit c.

(** [re.sub] of the pattern [[^a-z0-9]+] by nothing, in [brand.lower()]. *)
Definition brand_slug (brand : string) : string :=
  PyStr.filter is_slug_char (PyStr.lower brand).

(** [parsed.netloc.lower()] *)
Definition domain_of (netloc : string) : string := PyStr.lower netloc.

(** [domain[4:] if domain.startswith("www.") else domain] *)
Definition domain_nw_of (domain : string) : string :=
  if PyStr.startswith domain "www." then PyStr.drop 4 domain else domain.

Definition is_excluded (domain_nw : string) : bool :=
  existsb (fun bad => PyStr.endswith domain_nw bad) EXCLUDE_DOMAINS.

Definition _looks_official (url brand : string) : outcome bool :=
  let brand_slug := brand_slug brand in
  obind (urlparse_netloc url) (fun netloc =>
  let domain := domain_of netloc in
  if PyStr.endswith domain ".ru" then Return false
  else
    let domain_nw := domain_nw_of domain in
    if is_excluded domain_nw then Return false
    else Return (PyStr.contains (PyStr.take 6 brand_slug) domain_nw)).

(* =============================================================== *)
(** ** BeautifulSoup searches *)

(** All elements below [n], in document order. *)
Fixpoint descendants (n : node) : list node :=
  match n with
  | NavigableString _ | SpecialString _ _ => []
  | Tag _ _ _ contents =>
      flat_map (fun c => c :: descendants c) contents
  end.

Definition is_tag (tag : string) (n : node) : bool :=
  match n with
  | Tag name _ _ _ => String.eqb name tag
  | NavigableString _ | SpecialString _ _ => false
  end.

Definition has_class (cls : string) (n : node) : bool :=
  match n with
  | Tag _ class_ _ _ => existsb (String.eqb cls) class_
  | NavigableString _ | SpecialString _ _ => false
  end.

Fixpoint assoc (key : string) (l : list (string * string)) : option string :=
  match l with
  | [] => None
  | (k, v) :: l' => if String.eqb k key then Some v else assoc key l'
  end.

(** [tag[key]] when the attribute is there. *)
Definition attr (key : string) (n : node) : option string :=
  match n with
  | Tag _ _ attrs _ => assoc key attrs
  | NavigableString _ | SpecialString _ _ => None
  end.

Definition has_attr (key : string) (n : node) : bool :=
  match attr key n with Some _ => true | None => false end.

(** [n.find_all(tag)] *)
Definition find_all (tag : string) (n : node) : list node :=
  List.filter (is_tag tag) (descendants n).

(** [n.find(tag)] *)
Definition find (tag : string) (n : node) : option node :=
  hd_error (find_all tag n).

(** [n.find(tag, class_=cls)] *)
Definition find_class (tag cls : string) (n : node) : option node :=
  hd_error (List.filter (fun d => is_tag tag d && has_class cls d)
                        (descendants n)).

(** [n.find(tag, **{key: True})] *)
Definition find_with_attr (tag key : string) (n : node) : option node :=
  hd_error (List.filter (fun d => is_tag tag d && has_attr key d)
                        (descendants n)).

(** What [get_text(strip=True)] takes from one element below a tag other
    than [style], [script], [template], [rt] and [rp]: the stripped text of
    a string whose class is [NavigableString] or [CData] exactly, and
    nothing of a string of another class. *)
Definition stripped_string (n : node) : string :=
  match n with
  | NavigableString s | SpecialString CData s => PyStr.strip s
  | SpecialString _ _ | Tag _ _ _ _ => EmptyString
  end.

(** [n.get_text(strip=True)] for such a tag [n], as a [th] is: the stripped
    strings of ordinary text and character data below [n], joined. *)
Definition get_text_strip (n : node) : string :=
  String.concat EmptyString (map stripped_string (descendants n)).

(* =============================================================== *)
(** ** StructuredKB adapter: [fetch_wikidata_site] *)

Variable w : World.

Definition LF : string := String "010"%char EmptyString.
Definition DQUOTE : string := String "034"%char EmptyString.

Definition query_head : string :=
  "SELECT ?website WHERE {" ++ LF
  ++ "      ?entity rdfs:label " ++ DQUOTE.

Definition query_tail : string :=
  DQUOTE ++ "@en ." ++ LF
  ++ "      ?entity wdt:P856 ?website ." ++ LF
  ++ "    } LIMIT 1".

(** The f-string of the source. *)
Definition wikidata_query (name : string) : string :=
  query_head ++ name ++ query_tail.

Definition fetch_wikidata_site (name : string) : M (option string) :=
  let query := wikidata_query name in
  try_except
    (bindings <- request (WikidataRequest query) (wikidata_reply w query) ;;
     match bindings with
     | website :: _ => ret (Some website)
     | [] => ret None
     end)
    (fun _ => ret None).

(* =============================================================== *)
(** ** EncyclopediaInfobox adapter: [fetch_wikipedia_site] *)

(** The row has a header cell whose text mentions a website. *)
Definition is_website_row (row : node) : bool :=
  match find "th" row with
  | None => false
  | Some header =>
      PyStr.contains "website" (PyStr.lower (get_text_strip header))
  end.

(** [row.find("a", href=True)], then its [href]. *)
Definition first_link (row : node) : option string :=
  match find_with_attr "a" "href" row with
  | Some link => attr "href" link
  | None => None
  end.

(** The loop over the rows of the infobox. *)
Fixpoint scan_rows (rows : list node) (name : string)
  : outcome (option string) :=
  match rows with
  | [] => Return None
  | row :: rest =>
      if is_website_row row then
        match first_link row with
        | Some href =>
            if PyStr.startswith href "http" then
              obind (_looks_official href name) (fun official =>
              if official then Return (Some href)
              else scan_rows rest name)
            else scan_rows rest name
        | None => scan_rows rest name
        end
      else scan_rows rest name
  end.

Definition fetch_wikipedia_site (name : string) : M (option string) :=
  try_except
    (search <- request (WikipediaSearchRequest name)
                       (wikipedia_search_reply w name) ;;
     match search with
     | [] => ret None
     | pageid :: _ =>
         soup <- request (WikipediaParseRequest pageid)
                         (wikipedia_parse_reply w pageid) ;;
         match find_class "table" "infobox" soup with
         | None => ret None
         | Some infobox => lift (scan_rows (find_all "tr" infobox) name)
         end
     end)
    (fun _ => ret None).

(* =============================================================== *)
(** ** WebSearch adapter: [fetch_duckduckgo_site] *)

(** The loop over the search results. *)
Fixpoint first_official (results : list string) (name : string)
  : outcome (option string) :=
  match results with
  | [] => Return None
  | url :: rest =>
      obind (_looks_official url name) (fun official =>
      if official then Return (Some url)
      else first_official rest name)
  end.

Definition ddg_query (name : string) : string :=
  name ++ " official US website".

Definition fetch_duckduckgo_site (name : string) : M (option string) :=
  let query := ddg_query name in
  results <- request (DuckDuckGoRequest query) (ddgs_reply w query) ;;
  lift (first_official results name).

(* =============================================================== *)
(** ** Resolver: [get_website] *)

(** Python's truth value of an [Optional[str]]. *)
Definition truthy (site : option string) : bool :=
  match site with
  | None => false
  | Some EmptyString => false
  | Some (String _ _) => true
  end.

Definition get_website (brand : string) : M (option string * string) :=
  site <- fetch_wikidata_site brand ;;
  if truthy site then ret (site, "wikidata")
  else
    site <- fetch_wikipedia_site brand ;;
    if truthy site then ret (site, "wikipedia")
    else
      site <- fetch_duckduckgo_site brand ;;
      if truthy site then ret (site, "duckduckgo")
      else ret (None, "not_found").

Definition event_source (ev : event) : source :=
  match ev with
  | WikidataRequest _ => Wikidata
  | WikipediaSearchRequest _ | WikipediaParseRequest _ => Wikipedia
  | DuckDuckGoRequest _ => DuckDuckGo
  end.

(** The loop of [fetch_wikipedia_site] passes over [row]: it neither
    returns at it nor raises. *)
Definition passed_over (row : node) (name : string) : Prop :=
  is_website_row row = false
  \/ first_link row = None
  \/ exists href,
       first_link row = Some href
       /\ (PyStr.startswith href "http" = false
           \/ _looks_official href name = Return false).

(* ================================================================= *)
(** ** Reading a SPARQL string literal *)

(** The character an [ECHAR] escape stands for. *)
Definition echar (c : ascii) : option ascii :=
  if PyStr.code c =? 116 then Some "009"%char       (* t *)
  else if PyStr.code c =? 98 then Some "008"%char   (* b *)
  else if PyStr.code c =? 110 then Some "010"%char  (* n *)
  else if PyStr.code c =? 114 then Some "013"%char  (* r *)
  else if PyStr.code c =? 102 then Some "012"%char  (* f *)
  else if (PyStr.code c =? 92) || (PyStr.code c =? 34) || (PyStr.code c =? 39)
       then Some c
  else None.

(** A character that may stand for itself inside a double-quoted literal:
    anything but the quote, the backslash, line feed and carriage return. *)
Definition is_plain_char (c : ascii) : bool :=
  negb ((PyStr.code c =? 34) || (PyStr.code c =? 92)
        || (PyStr.code c =? 10) || (PyStr.code c =? 13)).

(** SPARQL's [STRING_LITERAL2], read from just after the opening quote:
    the string it denotes and the text after its closing quote. *)
Fixpoint read_string_literal (s : string) : option (string * string) :=
  match s with
  | EmptyString => None
  | String c s' =>
      if PyStr.code c =? 34 then Some (EmptyString, s')
      else if PyStr.code c =? 92 then
        match s' with
        | EmptyString => None
        | String e s'' =>
            match echar e, read_string_literal s'' with
            | Some d, Some (lit, rest) => Some (String d lit, rest)
            | _, _ => None
            end
        end
      else if is_plain_char c then
        match read_string_literal s' with
        | Some (lit, rest) => Some (String c lit, rest)
        | None => None
        end
      else None
  end.

(** The literal a query gives to [rdfs:label], with the rest of the query. *)
Definition label_literal (query : string) : option (string * string) :=
  if PyStr.startswith query query_head
  then read_string_literal (PyStr.drop (String.length query_head) query)
  else None.

(* ================================================================= *)
(** ** [send_csv_to_discord] and [main] *)

Variable host : Host.

(** [str(n)] for a status code. *)
Definition str_of_nat (n : nat) : string :=
  NilZero.string_of_uint (Nat.to_uint n).

(** [str(os.getenv(key))] inside an f-string. *)
Definition str_of_env (key : string) : string :=
  match getenv host key with
  | Some value => value
  | None => "None"
  end.

Definition send_csv_to_discord (webhook_url file_path message : string)
  : Run unit :=
  _ <~ os_call (OpenUpload file_path) (open_upload host file_path) ;;
  response <~
    (match discord_reply host webhook_url file_path with
     | Return r => inl r
     | Raise e => inr (Uncaught e)
     end, [Post webhook_url file_path message]) ;;
  let (status_code, text) := response in
  if status_code =? 204
  then act (Print "CSV sent to Discord successfully.")
  else act (Print ("Failed to send CSV: " ++ str_of_nat status_code
                   ++ " - " ++ text)).

(** [site or default] *)
Definition or_default (site : option string) (default : string) : string :=
  match site with
  | Some (String c rest) => String c rest
  | Some EmptyString | None => default
  end.

(** The call of [get_website] inside [main]: its requests become actions
    and its exception, if any, ends the run. *)
Definition call_get_website (brand : string) : Run (option string * string) :=
  (match result (get_website brand) with
   | Return answer => inl answer
   | Raise e => inr (Uncaught e)
   end,
   map Ask (trace (get_website brand))).

Definition progress_line (idx total : nat) (brand : string)
           (website : option string) (source : string) : string :=
  "[" ++ str_of_nat idx ++ "/" ++ str_of_nat total ++ "] " ++ brand ++ ": "
  ++ or_default website "N/A" ++ " (" ++ source ++ ")".

(** The loop of [main] over the brands, [idx] being the number of the first
    of them. *)
Fixpoint write_rows (idx total : nat) (brands : list string) : Run unit :=
  match brands with
  | [] => done tt
  | brand :: rest =>
      answer <~ call_get_website brand ;;
      let (website, source) := answer in
      _ <~ act (WriteRow [brand; or_default website EmptyString; source]) ;;
      _ <~ act (Print (progress_line idx total brand website source)) ;;
      _ <~ act (Sleep 3) ;;
      write_rows (S idx) total rest
  end.

Definition is_nonempty (s : string) : bool :=
  match s with
  | EmptyString => false
  | String _ _ => true
  end.

(** [[line.strip() for line in f if line.strip()]] *)
Definition stripped_lines (lines : list string) : list string :=
  map PyStr.strip
      (List.filter (fun line => is_nonempty (PyStr.strip line)) lines).

Definition webhook_url : string :=
  "https://discord.com/api/webhooks/" ++ str_of_env "DISCORD_WEBHOOK_ID"
  ++ "/" ++ str_of_env "DISCORD_WEBHOOK_TOKEN".

Definition usage : string :=
  "Usage: python website_finder.py <brands.txt> <output.csv>".

Definition main : Run unit :=
  match argv host with
  | [_; input_file; output_file] =>
      lines <~ os_call (ReadLines input_file) (read_lines host input_file) ;;
      let brands := stripped_lines lines in
      let brands := list_of_set host brands in
      _ <~ os_call (OpenOutput output_file) (open_output host output_file) ;;
      _ <~ act (WriteRow ["brand"; "website"; "source"]) ;;
      _ <~ write_rows 1 (List.length brands) brands ;;
      send_csv_to_discord webhook_url output_file "CSV done processing: "
  | _ =>
      _ <~ act (Print usage) ;;
      stop (SystemExit 1)
  end.

(** The brands of a batch, in the order of the run. *)
Definition batch (lines : list string) : list string :=
  list_of_set host (stripped_lines lines).

(** [list(set(l))] lists every member of [l] once. *)
Definition set_semantics : Prop :=
  forall l,
    NoDup (list_of_set host l)
    /\ forall x, In x (list_of_set host l) <-> In x l.

(** The row [main] writes for a brand that [get_website] has an answer
    for. *)
Definition row_of (brand : string) (row : list string) : Prop :=
  exists website source,
    result (get_website brand) = Return (website, source)
    /\ row = [brand; or_default website EmptyString; source].

(* ================================================================= *)
(** ** Facts about Python strings *)

Lemma take_all (n : nat) (s : string) :
  String.length s <= n -> PyStr.take n s = s.
Proof.
  revert n; induction s as [|c s IH]; intros [|n] Hlen; simpl in *;
    try reflexivity; try lia.
  f_equal. apply IH. lia.
Qed.

Lemma startswith_app (p t : string) : PyStr.startswith (p ++ t) p = true.
Proof.
  induction p as [|a p IH]; simpl; [reflexivity|].
  now rewrite Ascii.eqb_refl, IH.
Qed.

Lemma startswith_inv (s p : string) :
  PyStr.startswith s p = true -> exists t, s = (p ++ t)%string.
Proof.
  revert s; induction p as [|a p IH]; intros s H.
  - exists s. reflexivity.
  - destruct s as [|b s]; simpl in H; [discriminate|].
    apply andb_prop in H as [Hab Hrest].
    apply Ascii.eqb_eq in Hab; subst b.
    destruct (IH _ Hrest) as [t ->]. exists t. reflexivity.
Qed.

Lemma startswith_spec (s p : string) :
  PyStr.startswith s p = true <-> exists t, s = (p ++ t)%string.
Proof.
  split; [apply startswith_inv|].
  intros [t ->]. apply startswith_app.
Qed.

Lemma contains_here (sub s : string) :
  PyStr.startswith s sub = true -> PyStr.contains sub s = true.
Proof. intros H. destruct s; simpl; rewrite H; reflexivity. Qed.

Lemma contains_spec (sub s : string) :
  PyStr.contains sub s = true
  <-> exists pre post, s = (pre ++ sub ++ post)%string.
Proof.
  split.
  - induction s as [|c s IH]; simpl; intros H.
    + rewrite orb_false_r in H. apply startswith_inv in H as [t Ht].
      exists EmptyString, t. exact Ht.
    + apply orb_prop in H as [H|H].
      * apply startswith_inv in H as [t Ht].
        exists EmptyString, t. exact Ht.
      * destruct (IH H) as (pre & post & ->).
        exists (String c pre), post. reflexivity.
  - intros (pre & post & ->).
    induction pre as [|c pre IH].
    + cbn [append]. apply contains_here, startswith_app.
    + simpl. rewrite IH. apply orb_true_r.
Qed.

Lemma length_app (a b : string) :
  String.length (a ++ b) = String.length a + String.length b.
Proof. induction a as [|c a IH]; simpl; [reflexivity|now rewrite IH]. Qed.

Lemma drop_app (a b : string) : PyStr.drop (String.length a) (a ++ b) = b.
Proof.
  induction a as [|c a IH]; simpl; [|exact IH].
  destruct b; reflexivity.
Qed.

Lemma take_drop (n : nat) (s : string) :
  s = (PyStr.take n s ++ PyStr.drop n s)%string.
Proof.
  revert n; induction s as [|c s IH]; intros [|n]; simpl; try reflexivity.
  f_equal. apply IH.
Qed.

Lemma endswith_spec (s p : string) :
  PyStr.endswith s p = true <-> exists pre, s = (pre ++ p)%string.
Proof.
  unfold PyStr.endswith. split.
  - intros H. apply andb_prop in H as [_ H].
    apply String.eqb_eq in H.
    remember (String.length s - String.length p) as k.
    exists (PyStr.take k s). rewrite <- H. apply take_drop.
  - intros [pre ->]. rewrite length_app.
    replace (String.length pre + String.length p - String.length p)
      with (String.length pre) by lia.
    rewrite drop_app, String.eqb_refl.
    rewrite andb_true_r. apply Nat.leb_le. lia.
Qed.

(* ================================================================= *)
(** ** DomainMatcher *)

(** Once the URL is parsed, [_looks_official] is one boolean formula. *)
Lemma looks_official_parsed (url brand netloc : string) :
  urlparse_netloc url = Return netloc ->
  _looks_official url brand =
  Return (negb (PyStr.endswith (domain_of netloc) ".ru")
          && negb (is_excluded (domain_nw_of (domain_of netloc)))
          && PyStr.contains (PyStr.take 6 (brand_slug brand))
                            (domain_nw_of (domain_of netloc))).
Proof.
  intros Hparse. unfold _looks_official. rewrite Hparse. simpl.
  destruct (PyStr.endswith (domain_of netloc) ".ru"); [reflexivity|].
  destruct (is_excluded (domain_nw_of (domain_of netloc))); reflexivity.
Qed.

(** The only exception of [_looks_official] is the parser's, whatever the
    brand. *)
Lemma looks_official_raises (url brand : string) (e : exn) :
  _looks_official url brand = Raise e <-> urlparse_netloc url = Raise e.
Proof.
  unfold _looks_official.
  destruct (urlparse_netloc url) as [netloc|e']; simpl.
  - destruct (PyStr.endswith (domain_of netloc) ".ru");
      [|destruct (is_excluded (domain_nw_of (domain_of netloc)))];
      split; discriminate.
  - split; intros H; injection H as ->; reflexivity.
Qed.

Lemma is_excluded_spec (domain_nw : string) :
  is_excluded domain_nw = true
  <-> exists bad pre,
        In bad EXCLUDE_DOMAINS /\ domain_nw = (pre ++ bad)%string.
Proof.
  unfold is_excluded. rewrite existsb_exists. split.
  - intros (bad & Hin & Hend). apply endswith_spec in Hend as [pre Hpre].
    exists bad, pre. split; assumption.
  - intros (bad & pre & Hin & Hpre). exists bad. split; [assumption|].
    apply endswith_spec. exists pre. exact Hpre.
Qed.

(** The empty string is found in every string. *)
Lemma contains_empty (s : string) : PyStr.contains EmptyString s = true.
Proof. destruct s; reflexivity. Qed.

(** With an empty slug the substring test is no test at all: every domain
    that gets past the two rejections is accepted. *)
Lemma empty_slug_accepts (url brand netloc : string) :
  brand_slug brand = EmptyString ->
  urlparse_netloc url = Return netloc ->
  _looks_official url brand
  = Return (negb (PyStr.endswith (domain_of netloc) ".ru")
            && negb (is_excluded (domain_nw_of (domain_of netloc)))).
Proof.
  intros Hslug Hparse.
  rewrite (looks_official_parsed url brand netloc Hparse), Hslug.
  cbn [PyStr.take]. rewrite contains_empty, andb_true_r. reflexivity.
Qed.

(** C1 (the code departs from the claim): a brand name without a letter or
    digit has the empty slug, and the empty slug is found in every domain,
    so [_looks_official] accepts a site that has nothing to do with it. *)
Theorem empty_slug_accepted :
  brand_slug "!!!" = EmptyString
  /\ _looks_official "https://example.com" "!!!" = Return true.
Proof. split; vm_compute; reflexivity. Qed.



Lemma is_excluded_false (domain_nw : string) :
  is_excluded domain_nw = false
  <-> forall bad, In bad EXCLUDE_DOMAINS -> PyStr.endswith domain_nw bad = false.
Proof.
  unfold is_excluded. split.
  - intros Hnone bad Hin.
    destruct (PyStr.endswith domain_nw bad) eqn:Hend; [|reflexivity].
    assert (Hsome : existsb (fun b => PyStr.endswith domain_nw b)
                            EXCLUDE_DOMAINS = true)
      by (apply existsb_exists; exists bad; auto).
    rewrite Hsome in Hnone. discriminate Hnone.
  - intros Hall. apply not_true_is_false. intros Hsome.
    apply existsb_exists in Hsome as (bad & Hin & Hend).
    rewrite (Hall bad Hin) in Hend. discriminate Hend.
Qed.



(** C9, as amended: for a slug of one to five characters the key
    [brand_slug[:6]] is the whole slug.  [_looks_official] raises the
    [ValueError] of [urlparse] on a URL that does not parse, whatever the
    brand, and returns on every other URL.  When the network location is a
    bare host name (no user information, no port), it accepts exactly when
    the host passes the [.ru] test, the domain (the host in lower case
    without a leading [www.]) passes the exclusion test, and the slug is a
    contiguous substring of the domain. *)
Theorem short_slug_full_match (url brand : string) :
  1 <= String.length (brand_slug brand) <= 5 ->
  PyStr.take 6 (brand_slug brand) = brand_slug brand
  /\ match urlparse_netloc url with
     | Raise e => _looks_official url brand = Raise e
     | Return netloc =>
         exists accepted,
           _looks_official url brand = Return accepted
           /\ (PyStr.mem "@" netloc = false ->
               PyStr.mem ":" netloc = false ->
               let host := PyStr.lower netloc in
               let domain :=
                 if PyStr.startswith host "www."
                 then PyStr.drop 4 host else host in
               accepted = true
               <-> PyStr.endswith host ".ru" = false
                   /\ (forall bad,
                          In bad EXCLUDE_DOMAINS ->
                          PyStr.endswith domain bad = false)
                   /\ exists pre post,
                        domain = (pre ++ brand_slug brand ++ post)%string)
     end.
Proof.
  intros [_ Hlen].
  assert (Hkey : PyStr.take 6 (brand_slug brand) = brand_slug brand)
    by (apply take_all; lia).
  split; [exact Hkey|].
  destruct (urlparse_netloc url) as [netloc|e] eqn:Hparse.
  - eexists.
    split; [apply (looks_official_parsed url brand netloc Hparse)|].
    intros _ _. cbv zeta.
    change (PyStr.lower netloc) with (domain_of netloc).
    change (if PyStr.startswith (domain_of netloc) "www."
            then PyStr.drop 4 (domain_of netloc) else domain_of netloc)
      with (domain_nw_of (domain_of netloc)).
    rewrite Hkey, !andb_true_iff, !negb_true_iff, contains_spec,
      <- is_excluded_false.
    tauto.
  - apply looks_official_raises. exact Hparse.
Qed.

(* ================================================================= *)
(** ** Computations *)

Lemma result_bind {A B : Type} (m : M A) (f : A -> M B) :
  result (bind m f)
  = match result m with
    | Return a => result (f a)
    | Raise e => Raise e
    end.
Proof.
  destruct m as [[a|e] t]; simpl; [|reflexivity].
  destruct (f a); reflexivity.
Qed.

Lemma trace_bind {A B : Type} (m : M A) (f : A -> M B) :
  trace (bind m f)
  = trace m ++ match result m with
               | Return a => trace (f a)
               | Raise _ => []
               end.
Proof.
  destruct m as [[a|e] t]; simpl; [|now rewrite app_nil_r].
  destruct (f a); reflexivity.
Qed.

Lemma result_try_except {A : Type} (m : M A) (h : exn -> M A) :
  result (try_except m h)
  = match result m with
    | Return a => Return a
    | Raise e => result (h e)
    end.
Proof.
  destruct m as [[a|e] t]; simpl; [reflexivity|].
  destruct (h e); reflexivity.
Qed.

Lemma trace_try_except {A : Type} (m : M A) (h : exn -> M A) :
  trace (try_except m h)
  = trace m ++ match result m with
               | Return _ => []
               | Raise e => trace (h e)
               end.
Proof.
  destruct m as [[a|e] t]; simpl; [now rewrite app_nil_r|].
  destruct (h e); reflexivity.
Qed.

(* ================================================================= *)
(** ** The adapters, one by one *)

Lemma fetch_wikidata_site_result (name : string) :
  result (fetch_wikidata_site name)
  = Return match wikidata_reply w (wikidata_query name) with
           | Return (website :: _) => Some website
           | _ => None
           end.
Proof.
  unfold fetch_wikidata_site, request, result, try_except, bind.
  destruct (wikidata_reply w (wikidata_query name)) as [[|website rest]|e];
    reflexivity.
Qed.

Lemma fetch_wikidata_site_trace (name : string) :
  trace (fetch_wikidata_site name) = [WikidataRequest (wikidata_query name)].
Proof.
  unfold fetch_wikidata_site, request, trace, try_except, bind.
  destruct (wikidata_reply w (wikidata_query name)) as [[|website rest]|e];
    reflexivity.
Qed.

(** The [try]/[except] of [fetch_wikipedia_site] leaves no exception. *)
Lemma fetch_wikipedia_site_returns (name : string) :
  exists site, result (fetch_wikipedia_site name) = Return site.
Proof.
  unfold fetch_wikipedia_site. rewrite result_try_except.
  match goal with
  | |- context [result ?m] => destruct (result m) as [site|e]
  end; eexists; reflexivity.
Qed.

Lemma fetch_wikipedia_site_trace (name : string) :
  Forall (fun ev => event_source ev = Wikipedia)
         (trace (fetch_wikipedia_site name)).
Proof.
  unfold fetch_wikipedia_site, request, lift, trace, try_except, bind, ret.
  destruct (wikipedia_search_reply w name) as [[|pageid rest]|e]; simpl;
    try (repeat constructor).
  destruct (wikipedia_parse_reply w pageid) as [soup|e]; simpl;
    try (repeat constructor).
  destruct (find_class "table" "infobox" soup) as [infobox|]; simpl.
  - destruct (scan_rows (find_all "tr" infobox) name); simpl;
      repeat constructor.
  - repeat constructor.
Qed.

(** An adapter that runs leaves a request: a trace without a request of a
    source means that its adapter was not called. *)
Lemma fetch_wikipedia_site_asks (name : string) :
  exists more,
    trace (fetch_wikipedia_site name) = WikipediaSearchRequest name :: more.
Proof.
  unfold fetch_wikipedia_site. rewrite trace_try_except, trace_bind.
  cbn [request trace snd app]. eexists. reflexivity.
Qed.

(** What the loop returns was accepted by the two tests of its row. *)
Lemma scan_rows_some (rows : list node) (name href : string) :
  scan_rows rows name = Return (Some href) ->
  PyStr.startswith href "http" = true
  /\ _looks_official href name = Return true.
Proof.
  induction rows as [|row rest IH]; cbn [scan_rows]; [discriminate|].
  destruct (is_website_row row); [|exact IH].
  destruct (first_link row) as [link|]; [|exact IH].
  destruct (PyStr.startswith link "http") eqn:Hhttp; [|exact IH].
  destruct (_looks_official link name) as [[|]|e] eqn:Hofficial;
    cbn [obind].
  - intros H. injection H as <-. split; assumption.
  - exact IH.
  - discriminate.
Qed.

Lemma fetch_wikipedia_site_some (name href : string) :
  result (fetch_wikipedia_site name) = Return (Some href) ->
  PyStr.startswith href "http" = true
  /\ _looks_official href name = Return true.
Proof.
  unfold fetch_wikipedia_site, request, lift, result, try_except, bind, ret.
  destruct (wikipedia_search_reply w name) as [[|pageid rest]|e]; simpl;
    try discriminate.
  destruct (wikipedia_parse_reply w pageid) as [soup|e]; simpl;
    try discriminate.
  destruct (find_class "table" "infobox" soup) as [infobox|]; simpl;
    try discriminate.
  destruct (scan_rows (find_all "tr" infobox) name) as [site|e] eqn:Hscan;
    simpl; try discriminate.
  intros H. injection H as ->. apply (scan_rows_some _ _ _ Hscan).
Qed.

Lemma fetch_duckduckgo_site_result (name : string) :
  result (fetch_duckduckgo_site name)
  = obind (ddgs_reply w (ddg_query name))
          (fun results => first_official results name).
Proof.
  unfold fetch_duckduckgo_site, request, lift, result, bind.
  destruct (ddgs_reply w (ddg_query name)) as [results|e]; simpl;
    reflexivity.
Qed.

Lemma fetch_duckduckgo_site_trace (name : string) :
  trace (fetch_duckduckgo_site name) = [DuckDuckGoRequest (ddg_query name)].
Proof.
  unfold fetch_duckduckgo_site, request, lift, trace, bind.
  destruct (ddgs_reply w (ddg_query name)) as [results|e]; simpl;
    reflexivity.
Qed.

(* ================================================================= *)
(** ** The resolver in terms of its adapters *)

Lemma get_website_result (brand : string) :
  result (get_website brand)
  = match result (fetch_wikidata_site brand) with
    | Raise e => Raise e
    | Return kb =>
        if truthy kb then Return (kb, "wikidata")
        else
          match result (fetch_wikipedia_site brand) with
          | Raise e => Raise e
          | Return page =>
              if truthy page then Return (page, "wikipedia")
              else
                match result (fetch_duckduckgo_site brand) with
                | Raise e => Raise e
                | Return hit =>
                    if truthy hit then Return (hit, "duckduckgo")
                    else Return (None, "not_found")
                end
          end
    end.
Proof.
  unfold get_website. rewrite result_bind.
  destruct (result (fetch_wikidata_site brand)) as [kb|e]; [|reflexivity].
  destruct (truthy kb); [reflexivity|]. rewrite result_bind.
  destruct (result (fetch_wikipedia_site brand)) as [page|e]; [|reflexivity].
  destruct (truthy page); [reflexivity|]. rewrite result_bind.
  destruct (result (fetch_duckduckgo_site brand)) as [hit|e]; [|reflexivity].
  destruct (truthy hit); reflexivity.
Qed.

Lemma get_website_trace (brand : string) :
  trace (get_website brand)
  = trace (fetch_wikidata_site brand)
    ++ match result (fetch_wikidata_site brand) with
       | Raise _ => []
       | Return kb =>
           if truthy kb then []
           else
             trace (fetch_wikipedia_site brand)
             ++ match result (fetch_wikipedia_site brand) with
                | Raise _ => []
                | Return page =>
                    if truthy page then []
                    else trace (fetch_duckduckgo_site brand)
                end
       end.
Proof.
  unfold get_website. rewrite trace_bind. f_equal.
  destruct (result (fetch_wikidata_site brand)) as [kb|e]; [|reflexivity].
  destruct (truthy kb); [reflexivity|]. rewrite trace_bind. f_equal.
  destruct (result (fetch_wikipedia_site brand)) as [page|e]; [|reflexivity].
  destruct (truthy page); [reflexivity|]. rewrite trace_bind.
  destruct (result (fetch_duckduckgo_site brand)) as [hit|e];
    [|now rewrite app_nil_r].
  destruct (truthy hit); simpl; now rewrite app_nil_r.
Qed.

Lemma truthy_true (site : option string) :
  truthy site = true <-> exists c rest, site = Some (String c rest).
Proof.
  destruct site as [[|c rest]|]; simpl; split;
    try discriminate;
    try (intros (c' & rest' & H); discriminate).
  - intros _. exists c, rest. reflexivity.
  - reflexivity.
Qed.

(* ================================================================= *)
(** ** StructuredKB adapter *)

Lemma read_string_literal_plain (name rest : string) :
  PyStr.forallb is_plain_char name = true ->
  read_string_literal (name ++ String "034"%char rest) = Some (name, rest).
Proof.
  induction name as [|c name IH]; intros Hplain.
  - reflexivity.
  - cbn [PyStr.forallb] in Hplain. apply andb_prop in Hplain as [Hc Hname].
    cbn [append read_string_literal]. rewrite Hc, (IH Hname).
    unfold is_plain_char in Hc. apply negb_true_iff in Hc.
    apply orb_false_elim in Hc as [Hc _].
    apply orb_false_elim in Hc as [Hc _].
    apply orb_false_elim in Hc as [Hquote Hslash].
    rewrite Hquote, Hslash. reflexivity.
Qed.


(* ================================================================= *)
(** ** EncyclopediaInfobox adapter *)

Lemma scan_rows_passed_over (pre rest : list node) (name : string) :
  Forall (fun row => passed_over row name) pre ->
  scan_rows (pre ++ rest) name = scan_rows rest name.
Proof.
  induction 1 as [|row pre Hrow _ IH]; [reflexivity|].
  cbn [app scan_rows].
  destruct Hrow as [Hheader|[Hlink|(href & Hlink & [Hhttp|Hofficial])]].
  - now rewrite Hheader.
  - rewrite Hlink. now destruct (is_website_row row).
  - rewrite Hlink, Hhttp. now destruct (is_website_row row).
  - rewrite Hlink, Hofficial. cbn [obind].
    now destruct (is_website_row row), (PyStr.startswith href "http").
Qed.

Lemma scan_rows_at (row : node) (post : list node) (name href : string) :
  is_website_row row = true ->
  first_link row = Some href ->
  PyStr.startswith href "http" = true ->
  scan_rows (row :: post) name
  = obind (_looks_official href name) (fun official =>
    if official then Return (Some href) else scan_rows post name).
Proof.
  intros Hheader Hlink Hhttp. cbn [scan_rows].
  now rewrite Hheader, Hlink, Hhttp.
Qed.

Lemma fetch_wikipedia_site_scan
      (name : string) (pageid : nat) (others : list nat)
      (soup infobox : node) :
  wikipedia_search_reply w name = Return (pageid :: others) ->
  wikipedia_parse_reply w pageid = Return soup ->
  find_class "table" "infobox" soup = Some infobox ->
  result (fetch_wikipedia_site name)
  = match scan_rows (find_all "tr" infobox) name with
    | Return site => Return site
    | Raise _ => Return None
    end.
Proof.
  intros Hsearch Hparse Hbox.
  unfold fetch_wikipedia_site, request, lift, result, try_except, bind, ret.
  rewrite Hsearch, Hparse, Hbox.
  destruct (scan_rows (find_all "tr" infobox) name); reflexivity.
Qed.

(** The loop sees of a row only whether its header mentions a website and
    which link comes first. *)
Lemma scan_rows_same (rows others : list node) (name : string) :
  Forall2 (fun row other =>
             is_website_row row = is_website_row other
             /\ first_link row = first_link other)
          rows others ->
  scan_rows rows name = scan_rows others name.
Proof.
  induction 1 as [|row other rows others [Hheader Hlink] _ IH];
    [reflexivity|].
  cbn [scan_rows]. now rewrite Hheader, Hlink, IH.
Qed.

Lemma filter_none {A : Type} (f : A -> bool) (l : list A) :
  Forall (fun x => f x = false) l -> List.filter f l = [].
Proof.
  induction 1 as [|x l Hx _ IH]; [reflexivity|].
  cbn [List.filter]. now rewrite Hx.
Qed.

(** The link of a row is the [href] of the first anchor below it, in
    document order, that has one; what follows that anchor plays no part. *)
Lemma first_link_first (row link : node) (before after : list node)
      (href : string) :
  descendants row = before ++ link :: after ->
  Forall (fun d => is_tag "a" d && has_attr "href" d = false) before ->
  is_tag "a" link = true ->
  attr "href" link = Some href ->
  first_link row = Some href.
Proof.
  intros Hbelow Hbefore Htag Hhref.
  unfold first_link, find_with_attr.
  rewrite Hbelow, List.filter_app, (filter_none _ before Hbefore).
  cbn [app List.filter]. unfold has_attr at 1. rewrite Htag, Hhref.
  cbn [andb hd_error]. exact Hhref.
Qed.

(** C3, as amended: every [tr] below the infobox, rows of nested tables
    included, is tried in document order.  Of a row whose header mentions a
    website only the first anchor below it that has an [href] is tested,
    whatever follows that anchor.  When the test fails the row is passed
    over and the scan goes on with the rows after it; when it succeeds the
    [href] is the answer; when the heuristic raises, or no row succeeds,
    there is no answer.  The answer depends on a row only through its
    header and its first link. *)
Theorem wikipedia_first_accepted_row
        (name : string) (pageid : nat) (others : list nat)
        (soup infobox : node) :
  wikipedia_search_reply w name = Return (pageid :: others) ->
  wikipedia_parse_reply w pageid = Return soup ->
  find_class "table" "infobox" soup = Some infobox ->
  (forall pre row post before link after href,
      find_all "tr" infobox = pre ++ row :: post ->
      Forall (fun r => passed_over r name) pre ->
      is_website_row row = true ->
      descendants row = before ++ link :: after ->
      Forall (fun d => is_tag "a" d && has_attr "href" d = false) before ->
      is_tag "a" link = true ->
      attr "href" link = Some href ->
      (PyStr.startswith href "http" = true ->
       _looks_official href name = Return true ->
       result (fetch_wikipedia_site name) = Return (Some href))
      /\ (PyStr.startswith href "http" = false
          \/ _looks_official href name = Return false ->
          result (fetch_wikipedia_site name)
          = match scan_rows post name with
            | Return site => Return site
            | Raise _ => Return None
            end)
      /\ (forall e,
             PyStr.startswith href "http" = true ->
             _looks_official href name = Raise e ->
             result (fetch_wikipedia_site name) = Return None))
  /\ (Forall (fun r => passed_over r name) (find_all "tr" infobox) ->
      result (fetch_wikipedia_site name) = Return None)
  /\ (forall rows,
         Forall2 (fun row other =>
                    is_website_row row = is_website_row other
                    /\ first_link row = first_link other)
                 (find_all "tr" infobox) rows ->
         result (fetch_wikipedia_site name)
         = match scan_rows rows name with
           | Return site => Return site
           | Raise _ => Return None
           end).
Proof.
  intros Hsearch Hparse Hbox.
  rewrite (fetch_wikipedia_site_scan name pageid others soup infobox
             Hsearch Hparse Hbox).
  split; [|split].
  - intros pre row post before link after href
           Hrows Hpre Hheader Hbelow Hbefore Htag Hhref.
    pose proof (first_link_first row link before after href
                  Hbelow Hbefore Htag Hhref) as Hlink.
    rewrite Hrows, (scan_rows_passed_over pre (row :: post) name Hpre).
    split; [|split].
    + intros Hhttp Hofficial.
      rewrite (scan_rows_at row post name href Hheader Hlink Hhttp).
      now rewrite Hofficial.
    + intros Hfails.
      change (scan_rows (row :: post) name)
        with (scan_rows ([row] ++ post) name).
      rewrite (scan_rows_passed_over [row] post name); [reflexivity|].
      constructor; [|constructor].
      right; right. exists href. split; [exact Hlink|exact Hfails].
    + intros e Hhttp Hofficial.
      rewrite (scan_rows_at row post name href Hheader Hlink Hhttp).
      now rewrite Hofficial.
  - intros Hall.
    rewrite <- (app_nil_r (find_all "tr" infobox)),
      (scan_rows_passed_over _ [] name Hall).
    reflexivity.
  - intros rows Hsame.
    now rewrite (scan_rows_same (find_all "tr" infobox) rows name Hsame).
Qed.

(* ================================================================= *)
(** ** WebSearch adapter *)

(** C2 (the code departs from the claim): [fetch_duckduckgo_site] has no
    [try]/[except]; an error of the search provider comes out of the
    adapter, and out of [get_website] when the two earlier sources had
    nothing. *)
Theorem search_error_propagates (name : string) (e : exn) :
  ddgs_reply w (ddg_query name) = Raise e ->
  result (fetch_duckduckgo_site name) = Raise e
  /\ (forall kb page,
         result (fetch_wikidata_site name) = Return kb -> truthy kb = false ->
         result (fetch_wikipedia_site name) = Return page ->
         truthy page = false ->
         result (get_website name) = Raise e).
Proof.
  intros Hreply.
  assert (Hddg : result (fetch_duckduckgo_site name) = Raise e).
  { rewrite fetch_duckduckgo_site_result, Hreply. reflexivity. }
  split; [exact Hddg|].
  intros kb page Hkb Hkb_falsy Hpage Hpage_falsy.
  now rewrite get_website_result, Hkb, Hkb_falsy, Hpage, Hpage_falsy, Hddg.
Qed.

(* ================================================================= *)
(** ** Resolver *)

(** Splits a returned result of [get_website] into the four ways the
    function can return. *)
Ltac resolver_cases H kb Hkb page Hpage hit Hhit :=
  rewrite get_website_result in H;
  destruct (result (fetch_wikidata_site _)) as [kb|] eqn:?;
    [|discriminate H];
  destruct (truthy kb) eqn:Hkb;
    [|destruct (result (fetch_wikipedia_site _)) as [page|] eqn:?;
      [|discriminate H];
      destruct (truthy page) eqn:Hpage;
      [|destruct (result (fetch_duckduckgo_site _)) as [hit|] eqn:?;
        [|discriminate H];
        destruct (truthy hit) eqn:Hhit]];
  injection H as <- <-.

(** C5: the knowledge base is asked first and its answer is final; the
    encyclopedia comes second and, when it answers, the web search is not
    run.  In every run the first request goes to the knowledge base, and
    requests to the encyclopedia precede those to the web search. *)
Theorem get_website_priority (brand url : string) :
  url <> EmptyString ->
  (result (fetch_wikidata_site brand) = Return (Some url) ->
   result (get_website brand) = Return (Some url, "wikidata")
   /\ trace (get_website brand) = [WikidataRequest (wikidata_query brand)])
  /\ (forall kb,
         result (fetch_wikidata_site brand) = Return kb ->
         truthy kb = false ->
         result (fetch_wikipedia_site brand) = Return (Some url) ->
         result (get_website brand) = Return (Some url, "wikipedia")
         /\ Forall (fun ev => event_source ev <> DuckDuckGo)
                   (trace (get_website brand)))
  /\ exists later last,
       trace (get_website brand)
       = WikidataRequest (wikidata_query brand) :: later ++ last
       /\ Forall (fun ev => event_source ev = Wikipedia) later
       /\ Forall (fun ev => event_source ev = DuckDuckGo) last.
Proof.
  intros Hurl.
  assert (Htruthy : truthy (Some url) = true).
  { destruct url; [contradiction|reflexivity]. }
  split; [|split].
  - intros Hkb.
    rewrite get_website_result, get_website_trace, Hkb, Htruthy,
      fetch_wikidata_site_trace.
    split; reflexivity.
  - intros kb Hkb Hfalsy Hpage.
    rewrite get_website_result, get_website_trace, Hkb, Hfalsy, Hpage,
      Htruthy, fetch_wikidata_site_trace, app_nil_r.
    split; [reflexivity|].
    constructor; [discriminate|].
    eapply Forall_impl; [|apply fetch_wikipedia_site_trace].
    intros ev Hev. rewrite Hev. discriminate.
  - rewrite get_website_trace, fetch_wikidata_site_trace.
    pose proof (fetch_wikipedia_site_trace brand) as Hwiki.
    destruct (result (fetch_wikidata_site brand)) as [kb|e].
    + destruct (truthy kb).
      * exists [], []. repeat split; constructor.
      * destruct (result (fetch_wikipedia_site brand)) as [page|e].
        -- destruct (truthy page).
           ++ exists (trace (fetch_wikipedia_site brand)), [].
              repeat split; [assumption|constructor].
           ++ exists (trace (fetch_wikipedia_site brand)),
                (trace (fetch_duckduckgo_site brand)).
              repeat split; [assumption|].
              rewrite fetch_duckduckgo_site_trace. repeat constructor.
        -- exists (trace (fetch_wikipedia_site brand)), [].
           repeat split; [assumption|constructor].
    + exists [], []. repeat split; constructor.
Qed.

(** C6: a returned result has no URL exactly when its tag is [not_found];
    three absent answers give [(None, not_found)]; a tag that names a
    source comes with the value that source returned.  [get_website]
    returns unless the web search is reached and raises. *)
Theorem get_website_not_found_iff_absent (brand : string) :
  (forall site tag,
      result (get_website brand) = Return (site, tag) ->
      (site = None <-> tag = "not_found")
      /\ (tag = "wikidata" ->
          result (fetch_wikidata_site brand) = Return site)
      /\ (tag = "wikipedia" ->
          result (fetch_wikipedia_site brand) = Return site)
      /\ (tag = "duckduckgo" ->
          result (fetch_duckduckgo_site brand) = Return site)
      /\ In tag ["wikidata"; "wikipedia"; "duckduckgo"; "not_found"])
  /\ (result (fetch_wikidata_site brand) = Return None ->
      result (fetch_wikipedia_site brand) = Return None ->
      result (fetch_duckduckgo_site brand) = Return None ->
      result (get_website brand) = Return (None, "not_found"))
  /\ ((exists site tag, result (get_website brand) = Return (site, tag))
      \/ (exists e,
             result (fetch_duckduckgo_site brand) = Raise e
             /\ result (get_website brand) = Raise e)).
Proof.
  split; [|split].
  - intros site tag H.
    resolver_cases H kb Hkb page Hpage hit Hhit.
    + apply truthy_true in Hkb as (c & rest & ->).
      repeat split; try discriminate; simpl; auto.
    + apply truthy_true in Hpage as (c & rest & ->).
      repeat split; try discriminate; simpl; auto.
    + apply truthy_true in Hhit as (c & rest & ->).
      repeat split; try discriminate; simpl; auto.
    + repeat split; try discriminate; simpl; auto.
  - intros Hkb Hpage Hhit.
    now rewrite get_website_result, Hkb, Hpage, Hhit.
  - rewrite get_website_result, fetch_wikidata_site_result.
    destruct (truthy _); [left; eauto|].
    destruct (fetch_wikipedia_site_returns brand) as [page ->].
    destruct (truthy page); [left; eauto|].
    destruct (result (fetch_duckduckgo_site brand)) as [hit|e].
    + destruct (truthy hit); left; eauto.
    + right. eauto.
Qed.

(** C10: an empty string counts as no answer.  [get_website] looks at each
    adapter's value only through its truth value, which is false for the
    empty string as for [None]; after such a value the next source is asked;
    and a result whose tag is not [not_found] holds a non-empty string. *)
Theorem empty_string_is_absent (brand : string) :
  truthy (Some EmptyString) = truthy None
  /\ (forall kb page hit,
         result (fetch_wikidata_site brand) = Return kb ->
         result (fetch_wikipedia_site brand) = Return page ->
         result (fetch_duckduckgo_site brand) = Return hit ->
         result (get_website brand)
         = Return (if truthy kb then (kb, "wikidata")
                   else if truthy page then (page, "wikipedia")
                   else if truthy hit then (hit, "duckduckgo")
                   else (None, "not_found"))
         /\ trace (get_website brand)
            = trace (fetch_wikidata_site brand)
              ++ (if truthy kb then []
                  else trace (fetch_wikipedia_site brand)
                       ++ (if truthy page then []
                           else trace (fetch_duckduckgo_site brand))))
  /\ (forall site tag,
         result (get_website brand) = Return (site, tag) ->
         tag <> "not_found" ->
         exists c rest, site = Some (String c rest)).
Proof.
  split; [reflexivity|split].
  - intros kb page hit Hkb Hpage Hhit.
    rewrite get_website_result, get_website_trace, Hkb, Hpage, Hhit.
    destruct (truthy kb), (truthy page), (truthy hit); split; reflexivity.
  - intros site tag H Htag.
    resolver_cases H kb Hkb page Hpage hit Hhit.
    + apply truthy_true, Hkb.
    + apply truthy_true, Hpage.
    + apply truthy_true, Hhit.
    + contradiction Htag. reflexivity.
Qed.

(* ================================================================= *)
(** ** More on the domain heuristic *)

Lemma lower_char_idempotent (c : ascii) :
  PyStr.lower_char (PyStr.lower_char c) = PyStr.lower_char c.
Proof.
  destruct c as [[] [] [] [] [] [] [] []]; vm_compute; reflexivity.
Qed.

Lemma lower_idempotent (s : string) :
  PyStr.lower (PyStr.lower s) = PyStr.lower s.
Proof.
  induction s as [|c s IH]; simpl; [reflexivity|].
  now rewrite lower_char_idempotent, IH.
Qed.

Lemma slug_char_is_lower (c : ascii) :
  is_slug_char c = true -> PyStr.lower_char c = c.
Proof.
  destruct c as [[] [] [] [] [] [] [] []]; vm_compute;
    intros H; (reflexivity || discriminate H).
Qed.

Lemma filter_forallb (p : ascii -> bool) (s : string) :
  PyStr.forallb p (PyStr.filter p s) = true.
Proof.
  induction s as [|c s IH]; simpl; [reflexivity|].
  destruct (p c) eqn:Hc; simpl; [now rewrite Hc|exact IH].
Qed.

Lemma filter_length (p : ascii -> bool) (s : string) :
  String.length (PyStr.filter p s) <= String.length s.
Proof.
  induction s as [|c s IH]; simpl; [lia|].
  destruct (p c); simpl; lia.
Qed.

Lemma lower_length (s : string) :
  String.length (PyStr.lower s) = String.length s.
Proof. induction s as [|c s IH]; simpl; [reflexivity|now rewrite IH]. Qed.

Lemma slug_chars_fixed (s : string) :
  PyStr.forallb is_slug_char s = true ->
  PyStr.lower s = s /\ PyStr.filter is_slug_char s = s.
Proof.
  induction s as [|c s IH]; simpl; [split; reflexivity|].
  intros H. apply andb_prop in H as [Hc Hs].
  destruct (IH Hs) as [Hlower Hfilter].
  now rewrite Hc, (slug_char_is_lower c Hc), Hlower, Hfilter.
Qed.

(** X1: the slug holds nothing but the characters a-z and 0-9, is no longer
    than the brand name, and is its own slug. *)
Theorem brand_slug_normal_form (brand : string) :
  PyStr.forallb is_slug_char (brand_slug brand) = true
  /\ String.length (brand_slug brand) <= String.length brand
  /\ brand_slug (brand_slug brand) = brand_slug brand.
Proof.
  assert (Hchars : PyStr.forallb is_slug_char (brand_slug brand) = true)
    by apply filter_forallb.
  split; [exact Hchars|]. split.
  - unfold brand_slug. rewrite <- (lower_length brand). apply filter_length.
  - destruct (slug_chars_fixed (brand_slug brand) Hchars) as [Hlower Hfilter].
    unfold brand_slug at 1. now rewrite Hlower, Hfilter.
Qed.

(** X2: the verdict does not depend on the case of the brand name. *)
Theorem looks_official_ignores_brand_case (url brand : string) :
  brand_slug (PyStr.lower brand) = brand_slug brand
  /\ _looks_official url (PyStr.lower brand) = _looks_official url brand.
Proof.
  assert (Hslug : brand_slug (PyStr.lower brand) = brand_slug brand).
  { unfold brand_slug. now rewrite lower_idempotent. }
  split; [exact Hslug|].
  unfold _looks_official. now rewrite Hslug.
Qed.

(** X3: on a URL that parses, [_looks_official] returns, and it accepts
    exactly when the lowercased network location does not end with [.ru]
    (tested before a leading [www.] is dropped), and the same without a
    leading [www.] neither ends with a member of [EXCLUDE_DOMAINS] nor
    lacks the first six characters of the slug (the whole slug when it is
    shorter). *)
Theorem looks_official_accepts_iff (url brand netloc : string) :
  urlparse_netloc url = Return netloc ->
  let lowered := PyStr.lower netloc in
  let domain :=
    if PyStr.startswith lowered "www." then PyStr.drop 4 lowered
    else lowered in
  exists accepted,
    _looks_official url brand = Return accepted
    /\ (accepted = true
        <-> ~ (exists pre, lowered = (pre ++ ".ru")%string)
            /\ ~ (exists bad pre,
                     In bad EXCLUDE_DOMAINS
                     /\ domain = (pre ++ bad)%string)
            /\ exists pre post,
                 domain
                 = (pre ++ PyStr.take 6 (brand_slug brand) ++ post)%string).
Proof.
  intros Hparse. cbv zeta. eexists.
  split; [apply (looks_official_parsed url brand netloc Hparse)|].
  change (PyStr.lower netloc) with (domain_of netloc).
  change (if PyStr.startswith (domain_of netloc) "www."
          then PyStr.drop 4 (domain_of netloc) else domain_of netloc)
    with (domain_nw_of (domain_of netloc)).
  rewrite !andb_true_iff, !negb_true_iff, contains_spec.
  rewrite <- endswith_spec, <- is_excluded_spec.
  rewrite <- !not_true_iff_false. tauto.
Qed.

(** X4: a URL without a network location (no [//host] after an optional
    scheme) is rejected for every brand whose slug is not empty. *)
Theorem no_netloc_rejected (url brand : string) :
  urlparse_netloc url = Return EmptyString ->
  brand_slug brand <> EmptyString ->
  _looks_official url brand = Return false.
Proof.
  intros Hparse Hslug.
  rewrite (looks_official_parsed url brand EmptyString Hparse).
  destruct (brand_slug brand) as [|c slug]; [contradiction|reflexivity].
Qed.

Lemma filter_app (p : ascii -> bool) (a b : string) :
  PyStr.filter p (a ++ b) = (PyStr.filter p a ++ PyStr.filter p b)%string.
Proof.
  induction a as [|c a IH]; simpl; [reflexivity|].
  destruct (p c); simpl; now rewrite IH.
Qed.

Lemma splitnetloc_stops (a b : string) (d : ascii) :
  is_netloc_delim d = true ->
  splitnetloc (a ++ String d b) = splitnetloc a.
Proof.
  intros Hd. induction a as [|c a IH]; simpl.
  - now rewrite Hd.
  - now rewrite IH.
Qed.

Lemma delim_is_kept (d : ascii) :
  is_netloc_delim d = true -> is_unsafe_url_byte d = false.
Proof.
  destruct d as [[] [] [] [] [] [] [] []]; vm_compute;
    intros H; (reflexivity || discriminate H).
Qed.

Lemma netloc_of_tail (authority rest : string) (d : ascii) :
  is_netloc_delim d = true ->
  splitnetloc
    (PyStr.filter (fun c => negb (is_unsafe_url_byte c))
                  (authority ++ String d rest))
  = splitnetloc (PyStr.filter (fun c => negb (is_unsafe_url_byte c)) authority).
Proof.
  intros Hd. rewrite filter_app. cbn [PyStr.filter].
  rewrite (delim_is_kept d Hd). cbn [negb].
  apply splitnetloc_stops, Hd.
Qed.

Lemma urlparse_netloc_http (secure : bool) (tail : string) :
  urlparse_netloc ((if secure then "https://" else "http://") ++ tail)
  = let netloc :=
      splitnetloc
        (PyStr.filter (fun c => negb (is_unsafe_url_byte c)) tail) in
    let has_open := PyStr.mem "[" netloc in
    let has_close := PyStr.mem "]" netloc in
    if (has_open && negb has_close) || (has_close && negb has_open)
    then Raise (ValueError "Invalid IPv6 URL")
    else if has_open && has_close
         then if check_bracketed_netloc netloc
              then Return netloc
              else Raise (ValueError "Invalid IPv6 URL")
         else Return netloc.
Proof.
  destruct secure; reflexivity.
Qed.

(** X5: in an [http://] or [https://] URL everything from the first [/],
    [?] or [#] after the host is ignored: the verdict is that of the URL cut
    there, so a brand name in the path, query or fragment never counts. *)
Theorem looks_official_ignores_path
        (secure : bool) (authority rest brand : string) (d : ascii) :
  is_netloc_delim d = true ->
  _looks_official
    ((if secure then "https://" else "http://") ++ authority ++ String d rest)
    brand
  = _looks_official ((if secure then "https://" else "http://") ++ authority)
                    brand.
Proof.
  intros Hd. unfold _looks_official.
  rewrite !urlparse_netloc_http, (netloc_of_tail authority rest d Hd).
  reflexivity.
Qed.

(* ================================================================= *)
(** ** More on the adapters *)

(** X6: [fetch_wikidata_site] never raises.  It returns the value of the
    first binding, whatever that value is, and [None] when the request
    fails or brings no binding. *)
Theorem wikidata_adapter_never_raises (name : string) :
  exists site,
    result (fetch_wikidata_site name) = Return site
    /\ (site = None
        <-> (exists e, wikidata_reply w (wikidata_query name) = Raise e)
            \/ wikidata_reply w (wikidata_query name) = Return [])
    /\ (forall website,
           site = Some website
           <-> exists others,
                 wikidata_reply w (wikidata_query name)
                 = Return (website :: others)).
Proof.
  eexists. split; [apply fetch_wikidata_site_result|].
  destruct (wikidata_reply w (wikidata_query name)) as [[|first others]|e].
  - split; [split; auto|]. intros website. split; [discriminate|].
    intros [others H]. discriminate H.
  - split.
    + split; [discriminate|]. intros [[e H]|H]; discriminate H.
    + intros website. split.
      * intros H. injection H as ->. exists others. reflexivity.
      * intros [others' H]. injection H as -> _. reflexivity.
  - split; [split; eauto|]. intros website. split; [discriminate|].
    intros [others H]. discriminate H.
Qed.

Lemma fetch_wikipedia_site_trace_length (name : string) :
  1 <= List.length (trace (fetch_wikipedia_site name)) <= 2.
Proof.
  unfold fetch_wikipedia_site, request, lift, trace, try_except, bind, ret.
  destruct (wikipedia_search_reply w name) as [[|pageid rest]|e]; simpl;
    try lia.
  destruct (wikipedia_parse_reply w pageid) as [soup|e]; simpl; try lia.
  destruct (find_class "table" "infobox" soup) as [infobox|]; simpl;
    try lia.
  destruct (scan_rows (find_all "tr" infobox) name); simpl; lia.
Qed.

(** X7: [fetch_wikipedia_site] never raises, whatever the service answers
    and whatever the page holds, an exception of [_looks_official]
    included; it makes one or two requests, all to the encyclopedia. *)
Theorem wikipedia_adapter_never_raises (name : string) :
  (exists site, result (fetch_wikipedia_site name) = Return site)
  /\ 1 <= List.length (trace (fetch_wikipedia_site name)) <= 2
  /\ Forall (fun ev => event_source ev = Wikipedia)
            (trace (fetch_wikipedia_site name)).
Proof.
  split; [apply fetch_wikipedia_site_returns|].
  split; [apply fetch_wikipedia_site_trace_length|].
  apply fetch_wikipedia_site_trace.
Qed.

(** X8: a link returned by [fetch_wikipedia_site] starts with [http] and
    was accepted by [_looks_official] for the brand. *)
Theorem wikipedia_hit_is_official (name href : string) :
  result (fetch_wikipedia_site name) = Return (Some href) ->
  PyStr.startswith href "http" = true
  /\ _looks_official href name = Return true
  /\ href <> EmptyString.
Proof.
  intros H. destruct (fetch_wikipedia_site_some name href H) as [Hhttp Hok].
  repeat split; try assumption.
  intros ->. discriminate Hhttp.
Qed.

(** X9: without a page there is no second request.  When the search fails
    or finds nothing, [fetch_wikipedia_site] returns [None] after the search
    request alone; when the page cannot be fetched or has no infobox table,
    it returns [None] after the two requests. *)
Theorem wikipedia_absent_cases (name : string) :
  ((exists e, wikipedia_search_reply w name = Raise e)
   \/ wikipedia_search_reply w name = Return [] ->
   fetch_wikipedia_site name = (Return None, [WikipediaSearchRequest name]))
  /\ (forall pageid others,
         wikipedia_search_reply w name = Return (pageid :: others) ->
         (exists e, wikipedia_parse_reply w pageid = Raise e)
         \/ (exists soup,
                wikipedia_parse_reply w pageid = Return soup
                /\ find_class "table" "infobox" soup = None) ->
         fetch_wikipedia_site name
         = (Return None,
            [WikipediaSearchRequest name; WikipediaParseRequest pageid])).
Proof.
  unfold fetch_wikipedia_site, request, lift, try_except, bind, ret.
  split.
  - intros [[e ->]| ->]; reflexivity.
  - intros pageid others -> [[e ->]|(soup & -> & ->)]; reflexivity.
Qed.

Lemma first_official_some (results : list string) (name url : string) :
  first_official results name = Return (Some url)
  <-> exists pre post,
        results = pre ++ url :: post
        /\ Forall (fun u => _looks_official u name = Return false) pre
        /\ _looks_official url name = Return true.
Proof.
  split.
  - induction results as [|first rest IH]; cbn [first_official];
      [discriminate|].
    destruct (_looks_official first name) as [[|]|e] eqn:Hfirst;
      cbn [obind]; intros H.
    + injection H as <-. exists [], rest. repeat split; auto.
    + destruct (IH H) as (pre & post & -> & Hpre & Hurl).
      exists (first :: pre), post. repeat split; auto.
    + discriminate H.
  - intros (pre & post & -> & Hpre & Hurl).
    induction Hpre as [|first pre Hfirst _ IH]; cbn [app first_official].
    + now rewrite Hurl.
    + now rewrite Hfirst.
Qed.

Lemma first_official_none (results : list string) (name : string) :
  first_official results name = Return None
  <-> Forall (fun u => _looks_official u name = Return false) results.
Proof.
  split.
  - induction results as [|first rest IH]; cbn [first_official];
      [constructor|].
    destruct (_looks_official first name) as [[|]|e] eqn:Hfirst;
      cbn [obind]; intros H; try discriminate H.
    constructor; auto.
  - induction 1 as [|first rest Hfirst _ IH]; cbn [first_official];
      [reflexivity|].
    now rewrite Hfirst.
Qed.

Lemma first_official_raise (results : list string) (name : string) (e : exn) :
  first_official results name = Raise e
  <-> exists pre url post,
        results = pre ++ url :: post
        /\ Forall (fun u => _looks_official u name = Return false) pre
        /\ _looks_official url name = Raise e.
Proof.
  split.
  - induction results as [|first rest IH]; cbn [first_official];
      [discriminate|].
    destruct (_looks_official first name) as [[|]|e'] eqn:Hfirst;
      cbn [obind]; intros H.
    + discriminate H.
    + destruct (IH H) as (pre & url & post & -> & Hpre & Hurl).
      exists (first :: pre), url, post. repeat split; auto.
    + injection H as ->. exists [], first, rest. repeat split; auto.
  - intros (pre & url & post & -> & Hpre & Hurl).
    induction Hpre as [|first pre Hfirst _ IH]; cbn [app first_official].
    + now rewrite Hurl.
    + now rewrite Hfirst.
Qed.

(** X10: [fetch_duckduckgo_site] returns the first result, in rank order,
    that [_looks_official] accepts: every result before it was rejected. *)
Theorem duckduckgo_returns_first_accepted
        (name url : string) (results : list string) :
  ddgs_reply w (ddg_query name) = Return results ->
  (result (fetch_duckduckgo_site name) = Return (Some url)
   <-> exists pre post,
         results = pre ++ url :: post
         /\ Forall (fun u => _looks_official u name = Return false) pre
         /\ _looks_official url name = Return true).
Proof.
  intros Hreply. rewrite fetch_duckduckgo_site_result, Hreply.
  apply first_official_some.
Qed.

(** X11: [fetch_duckduckgo_site] returns [None] exactly when every result
    is rejected, in particular when there is no result. *)
Theorem duckduckgo_absent_iff_all_rejected
        (name : string) (results : list string) :
  ddgs_reply w (ddg_query name) = Return results ->
  (result (fetch_duckduckgo_site name) = Return None
   <-> Forall (fun u => _looks_official u name = Return false) results).
Proof.
  intros Hreply. rewrite fetch_duckduckgo_site_result, Hreply.
  apply first_official_none.
Qed.

(** X12: [fetch_duckduckgo_site] raises in two cases only: the search
    provider raised, or a result that no accepted result precedes has a URL
    that [urlparse] refuses. *)
Theorem duckduckgo_raises_iff (name : string) (e : exn) :
  result (fetch_duckduckgo_site name) = Raise e
  <-> ddgs_reply w (ddg_query name) = Raise e
      \/ exists pre url post,
           ddgs_reply w (ddg_query name) = Return (pre ++ url :: post)
           /\ Forall (fun u => _looks_official u name = Return false) pre
           /\ urlparse_netloc url = Raise e.
Proof.
  rewrite fetch_duckduckgo_site_result.
  destruct (ddgs_reply w (ddg_query name)) as [results|e']; cbn [obind].
  - rewrite first_official_raise. split.
    + intros (pre & url & post & -> & Hpre & Hurl). right.
      exists pre, url, post. apply looks_official_raises in Hurl. auto.
    + intros [H|(pre & url & post & H & Hpre & Hurl)]; [discriminate H|].
      injection H as ->. exists pre, url, post.
      apply (looks_official_raises url name e) in Hurl. auto.
  - split.
    + intros H. injection H as ->. left. reflexivity.
    + intros [H|(pre & url & post & H & _)]; [|discriminate H].
      injection H as ->. reflexivity.
Qed.

(** X13: a name with a double quote cuts the label short.  When the text
    before the first double quote has no backslash or line break, the label
    literal of the query denotes that text only, and the rest of the name
    is read as query text. *)
Theorem wikidata_query_cut_at_quote (before after : string) :
  PyStr.forallb is_plain_char before = true ->
  label_literal (wikidata_query (before ++ DQUOTE ++ after))
  = Some (before, (after ++ query_tail)%string).
Proof.
  intros Hplain. unfold label_literal, wikidata_query.
  rewrite startswith_app, drop_app.
  replace ((before ++ DQUOTE ++ after) ++ query_tail)%string
    with (before ++ String "034"%char (after ++ query_tail))%string.
  - apply read_string_literal_plain, Hplain.
  - induction before as [|c before IH]; [reflexivity|].
    cbn [append]. f_equal. apply IH.
    cbn [PyStr.forallb] in Hplain. now apply andb_prop in Hplain.
Qed.

(* ================================================================= *)
(** ** More on the resolver *)

Lemma get_website_trace_length (brand : string) :
  1 <= List.length (trace (get_website brand)) <= 4.
Proof.
  rewrite get_website_trace, fetch_wikidata_site_trace.
  pose proof (fetch_wikipedia_site_trace_length brand) as Hlen.
  cbn [app List.length].
  destruct (result (fetch_wikidata_site brand)) as [kb|e];
    [|cbn [List.length]; lia].
  destruct (truthy kb); [cbn [List.length]; lia|].
  rewrite List.length_app.
  destruct (result (fetch_wikipedia_site brand)) as [page|e];
    [|cbn [List.length]; lia].
  destruct (truthy page); [cbn [List.length]; lia|].
  rewrite fetch_duckduckgo_site_trace. cbn [List.length]. lia.
Qed.

(** X14: one resolution makes between one and four requests, and the first
    is the query to the knowledge base. *)
Theorem get_website_request_bound (brand : string) :
  1 <= List.length (trace (get_website brand)) <= 4
  /\ exists more,
       trace (get_website brand)
       = WikidataRequest (wikidata_query brand) :: more.
Proof.
  split; [apply get_website_trace_length|].
  rewrite get_website_trace, fetch_wikidata_site_trace.
  eexists. reflexivity.
Qed.

(** X15: an answer of the encyclopedia or of the web search was accepted
    by [_looks_official] for the brand; only the knowledge base is taken at
    its word. *)
Theorem later_sources_are_filtered (brand url tag : string) :
  result (get_website brand) = Return (Some url, tag) ->
  tag <> "wikidata" ->
  _looks_official url brand = Return true.
Proof.
  intros H Htag. rewrite get_website_result in H.
  destruct (result (fetch_wikidata_site brand)) as [kb|e] eqn:Hkb;
    [|discriminate H].
  destruct (truthy kb).
  { injection H as _ Hwikidata. contradiction Htag. now symmetry. }
  destruct (result (fetch_wikipedia_site brand)) as [page|e] eqn:Hpage;
    [|discriminate H].
  destruct (truthy page).
  { injection H as -> _. apply (fetch_wikipedia_site_some brand url Hpage). }
  destruct (result (fetch_duckduckgo_site brand)) as [hit|e] eqn:Hhit;
    [|discriminate H].
  destruct (truthy hit); [|discriminate H].
  injection H as -> _.
  rewrite fetch_duckduckgo_site_result in Hhit.
  destruct (ddgs_reply w (ddg_query brand)) as [results|e];
    [|discriminate Hhit].
  apply first_official_some in Hhit as (pre & post & _ & _ & Hurl).
  exact Hurl.
Qed.

(** X16: [get_website] raises exactly when the two first sources gave
    nothing usable and [fetch_duckduckgo_site] raised; the exception is
    that of the adapter. *)
Theorem get_website_raises_iff (brand : string) (e : exn) :
  result (get_website brand) = Raise e
  <-> exists kb page,
        result (fetch_wikidata_site brand) = Return kb
        /\ truthy kb = false
        /\ result (fetch_wikipedia_site brand) = Return page
        /\ truthy page = false
        /\ result (fetch_duckduckgo_site brand) = Raise e.
Proof.
  rewrite get_website_result, fetch_wikidata_site_result.
  destruct (fetch_wikipedia_site_returns brand) as [page ->].
  split.
  - destruct (truthy _) eqn:Hkb; [discriminate|].
    destruct (truthy page) eqn:Hpage; [discriminate|].
    destruct (result (fetch_duckduckgo_site brand)) as [hit|e'].
    + destruct (truthy hit); discriminate.
    + intros H. injection H as ->. eauto 10.
  - intros (kb & page' & Hkb & Hkb_falsy & Hpage & Hpage_falsy & ->).
    injection Hkb as <-. injection Hpage as <-.
    now rewrite Hkb_falsy, Hpage_falsy.
Qed.

(* ================================================================= *)
(** ** The batch script *)

Lemma written_app (t u : list action) :
  written (t ++ u) = written t ++ written u.
Proof. apply flat_map_app. Qed.

Lemma asked_app (t u : list action) : asked (t ++ u) = asked t ++ asked u.
Proof. apply flat_map_app. Qed.

Lemma slept_app (t u : list action) : slept (t ++ u) = slept t + slept u.
Proof. unfold slept. now rewrite map_app, list_sum_app. Qed.

Lemma uploads_app (t u : list action) :
  uploads (t ++ u) = uploads t ++ uploads u.
Proof. apply List.filter_app. Qed.

(** Requests are neither rows nor pauses nor uploads. *)
Lemma requests_only (evs : list event) :
  written (map Ask evs) = []
  /\ slept (map Ask evs) = 0
  /\ uploads (map Ask evs) = []
  /\ asked (map Ask evs) = evs.
Proof.
  unfold written, slept, uploads, asked.
  induction evs as [|ev evs (Hw & Hs & Hu & Ha)]; [repeat split|].
  cbn. repeat split; try assumption. now f_equal.
Qed.

(** The actions of one turn of the loop, followed by [t]. *)
Lemma turn_projections (evs : list event) (row : list string)
      (line : string) (t : list action) :
  let turn := map Ask evs ++ WriteRow row :: Print line :: Sleep 3 :: t in
  written turn = row :: written t
  /\ slept turn = 3 + slept t
  /\ uploads turn = uploads t
  /\ asked turn = evs ++ asked t.
Proof.
  cbv zeta. rewrite written_app, slept_app, uploads_app, asked_app.
  destruct (requests_only evs) as (-> & -> & -> & ->).
  repeat split.
Qed.

(** One turn of the loop of [main]. *)
Lemma write_rows_cons (idx total : nat) (brand : string) (rest : list string) :
  write_rows idx total (brand :: rest)
  = match result (get_website brand) with
    | Return (website, source) =>
        (outcome_of (write_rows (S idx) total rest),
         map Ask (trace (get_website brand))
         ++ WriteRow [brand; or_default website EmptyString; source]
            :: Print (progress_line idx total brand website source)
            :: Sleep 3
            :: actions (write_rows (S idx) total rest))
    | Raise e => (inr (Uncaught e), map Ask (trace (get_website brand)))
    end.
Proof.
  cbn [write_rows]. unfold call_get_website, and_then, act.
  destruct (result (get_website brand)) as [[website source]|e];
    [|reflexivity].
  destruct (write_rows (S idx) total rest) as [[[]|f] t]; reflexivity.
Qed.

(** What a run of the loop leaves behind, however it ends: the brands it
    got through, with their rows and pauses, and the brand it failed on. *)
Lemma write_rows_shape (brands : list string) (idx total : nat) :
  exists finished rest,
    brands = finished ++ rest
    /\ Forall2 row_of finished (written (actions (write_rows idx total brands)))
    /\ slept (actions (write_rows idx total brands))
       = 3 * List.length finished
    /\ uploads (actions (write_rows idx total brands)) = []
    /\ List.length (asked (actions (write_rows idx total brands)))
       <= 4 * List.length brands
    /\ match outcome_of (write_rows idx total brands) with
       | inl _ => rest = []
       | inr f =>
           exists brand later e,
             rest = brand :: later
             /\ f = Uncaught e
             /\ result (get_website brand) = Raise e
       end.
Proof.
  revert idx. induction brands as [|brand brands IH]; intros idx.
  - exists [], []. cbn. repeat split; constructor.
  - rewrite write_rows_cons.
    pose proof (get_website_trace_length brand) as [_ Hbound].
    destruct (result (get_website brand)) as [[website source]|e] eqn:Hres.
    + destruct (IH (S idx))
        as (finished & rest & -> & Hrows & Hslept & Hup & Hask & Hend).
      exists (brand :: finished), rest.
      unfold actions, outcome_of in *. cbn [fst snd].
      destruct (turn_projections (trace (get_website brand))
                  [brand; or_default website EmptyString; source]
                  (progress_line idx total brand website source)
                  (snd (write_rows (S idx) total (finished ++ rest))))
        as (-> & -> & -> & ->).
      rewrite Hslept, Hup, List.length_app.
      repeat split.
      * constructor; [|exact Hrows]. exists website, source. auto.
      * cbn [List.length]. lia.
      * cbn [List.length app] in *. lia.
      * exact Hend.
    + exists [], (brand :: brands).
      unfold actions, outcome_of. cbn [fst snd].
      destruct (requests_only (trace (get_website brand)))
        as (-> & -> & -> & ->).
      split; [reflexivity|]. split; [constructor|].
      split; [reflexivity|]. split; [reflexivity|]. split.
      * cbn [List.length]. lia.
      * exists brand, brands, e. auto.
Qed.

(** The website field of a row is empty exactly when its source is
    [not_found]. *)
Lemma row_of_fields (brand : string) (row : list string) :
  row_of brand row ->
  exists site tag,
    row = [brand; site; tag] /\ (site = EmptyString <-> tag = "not_found").
Proof.
  intros (website & source & H & ->).
  exists (or_default website EmptyString), source.
  split; [reflexivity|].
  resolver_cases H kb Hkb page Hpage hit Hhit.
  - apply truthy_true in Hkb as (c & rest & ->). split; discriminate.
  - apply truthy_true in Hpage as (c & rest & ->). split; discriminate.
  - apply truthy_true in Hhit as (c & rest & ->). split; discriminate.
  - split; reflexivity.
Qed.

(** [main] once its two files are open. *)
Lemma main_running (prog input_file output_file : string)
      (lines : list string) :
  argv host = [prog; input_file; output_file] ->
  read_lines host input_file = inl lines ->
  open_output host output_file = inl tt ->
  let loop := write_rows 1 (List.length (batch lines)) (batch lines) in
  let upload :=
    send_csv_to_discord webhook_url output_file "CSV done processing: " in
  outcome_of main
  = match outcome_of loop with
    | inl _ => outcome_of upload
    | inr f => inr f
    end
  /\ actions main
     = ReadLines input_file :: OpenOutput output_file
       :: WriteRow ["brand"; "website"; "source"]
       :: actions loop
          ++ match outcome_of loop with
             | inl _ => actions upload
             | inr _ => []
             end.
Proof.
  intros Hargv Hread Hopen. cbv zeta.
  unfold main, batch. rewrite Hargv.
  unfold os_call, and_then, act. rewrite Hread, Hopen.
  unfold outcome_of, actions.
  destruct (write_rows 1 _ _) as [[[]|f] t]; cbn [fst snd].
  - destruct (send_csv_to_discord _ _ _) as [r t']. split; reflexivity.
  - rewrite app_nil_r. split; reflexivity.
Qed.

(** Opening the two files and writing the header, followed by [t]. *)
Lemma opening_projections (input_file output_file : string)
      (t : list action) :
  let opening :=
    ReadLines input_file :: OpenOutput output_file
    :: WriteRow ["brand"; "website"; "source"] :: t in
  written opening = ["brand"; "website"; "source"] :: written t
  /\ slept opening = slept t
  /\ uploads opening = uploads t
  /\ asked opening = asked t.
Proof. repeat split. Qed.

Lemma send_csv_to_discord_uploads (url path message : string) :
  open_upload host path = inl tt ->
  forall status text,
    discord_reply host url path = Return (status, text) ->
    outcome_of (send_csv_to_discord url path message) = inl tt
    /\ written (actions (send_csv_to_discord url path message)) = []
    /\ slept (actions (send_csv_to_discord url path message)) = 0
    /\ asked (actions (send_csv_to_discord url path message)) = []
    /\ uploads (actions (send_csv_to_discord url path message))
       = [OpenUpload path; Post url path message].
Proof.
  intros Hopen status text Hreply.
  unfold send_csv_to_discord, os_call, and_then, act.
  rewrite Hopen, Hreply.
  destruct (status =? 204); repeat split.
Qed.

Lemma send_csv_to_discord_quiet (url path message : string) :
  written (actions (send_csv_to_discord url path message)) = []
  /\ slept (actions (send_csv_to_discord url path message)) = 0
  /\ asked (actions (send_csv_to_discord url path message)) = [].
Proof.
  unfold send_csv_to_discord, os_call, and_then, act.
  destruct (open_upload host path) as [[]|msg]; [|repeat split].
  destruct (discord_reply host url path) as [[status text]|e];
    [|repeat split].
  destruct (status =? 204); repeat split.
Qed.

(** [main] when one of its two files does not open. *)
Lemma main_unreadable (prog input_file output_file msg : string) :
  argv host = [prog; input_file; output_file] ->
  read_lines host input_file = inr msg ->
  main = (inr (OSError msg), [ReadLines input_file]).
Proof.
  intros Hargv Hread. unfold main, os_call, and_then.
  now rewrite Hargv, Hread.
Qed.

Lemma main_unwritable (prog input_file output_file msg : string)
      (lines : list string) :
  argv host = [prog; input_file; output_file] ->
  read_lines host input_file = inl lines ->
  open_output host output_file = inr msg ->
  main = (inr (OSError msg), [ReadLines input_file; OpenOutput output_file]).
Proof.
  intros Hargv Hread Hopen. unfold main, os_call, and_then.
  now rewrite Hargv, Hread, Hopen.
Qed.

(** X17: with anything but two arguments [main] prints the usage line and
    exits with status 1; no file is opened and no request is made. *)
Theorem main_usage :
  List.length (argv host) <> 3 ->
  main = (inr (SystemExit 1), [Print usage]).
Proof.
  intros Hlen. unfold main.
  destruct (argv host) as [|prog [|input_file [|output_file [|extra more]]]];
    try reflexivity.
  contradiction Hlen. reflexivity.
Qed.

(** X18: when the input file cannot be read, [main] ends with that error
    before the output file is opened; when the output file cannot be
    opened, it ends with that error before the first request. *)
Theorem main_file_errors (prog input_file output_file msg : string) :
  argv host = [prog; input_file; output_file] ->
  (read_lines host input_file = inr msg ->
   main = (inr (OSError msg), [ReadLines input_file]))
  /\ (forall lines,
         read_lines host input_file = inl lines ->
         open_output host output_file = inr msg ->
         main = (inr (OSError msg),
                 [ReadLines input_file; OpenOutput output_file])).
Proof.
  intros Hargv. split.
  - intros Hread.
    apply (main_unreadable prog input_file output_file msg Hargv Hread).
  - intros lines Hread Hopen.
    apply (main_unwritable prog input_file output_file msg lines
             Hargv Hread Hopen).
Qed.

(** X19: every row [main] writes has three fields, and its website field
    is empty exactly when its source field is [not_found]. *)
Theorem main_rows_invariant :
  Forall (fun row =>
            exists brand site tag,
              row = [brand; site; tag]
              /\ (site = EmptyString <-> tag = "not_found"))
         (written (actions main)).
Proof.
  destruct (argv host)
    as [|prog [|input_file [|output_file [|extra more]]]] eqn:Hargv;
    try (unfold main; rewrite Hargv; constructor).
  destruct (read_lines host input_file) as [lines|msg] eqn:Hread.
  - destruct (open_output host output_file) as [[]|msg] eqn:Hopen.
    + destruct (main_running prog input_file output_file lines
                  Hargv Hread Hopen) as [_ ->].
      destruct (opening_projections input_file output_file
                  (actions (write_rows 1 (List.length (batch lines))
                                       (batch lines))
                   ++ match outcome_of
                              (write_rows 1 (List.length (batch lines))
                                          (batch lines)) with
                      | inl _ =>
                          actions (send_csv_to_discord webhook_url
                                     output_file "CSV done processing: ")
                      | inr _ => []
                      end)) as (-> & _).
      rewrite written_app.
      replace (written match outcome_of _ with
                       | inl _ => _
                       | inr _ => []
                       end) with (@nil (list string)).
      * rewrite app_nil_r. constructor.
        -- exists "brand", "website", "source".
           split; [reflexivity|]. split; discriminate.
        -- destruct (write_rows_shape (batch lines) 1
                       (List.length (batch lines)))
             as (finished & rest & _ & Hrows & _).
           induction Hrows as [|brand row finished rows Hrow _ IH];
             constructor; [|exact IH].
           destruct (row_of_fields brand row Hrow) as (site & tag & H).
           exists brand, site, tag. exact H.
      * destruct (outcome_of _); [|reflexivity].
        symmetry. apply send_csv_to_discord_quiet.
    + rewrite (main_unwritable prog input_file output_file msg lines
                 Hargv Hread Hopen).
      constructor.
  - rewrite (main_unreadable prog input_file output_file msg Hargv Hread).
    constructor.
Qed.

(** X20: when every brand of the batch gets an answer and the upload goes
    through, [main] ends normally whatever status Discord replies with:
    it has written the header and one row per brand, in the order of the
    batch, paused three seconds after each, and uploaded the file once. *)
Theorem main_completes
        (prog input_file output_file text : string)
        (lines : list string) (status : nat) :
  argv host = [prog; input_file; output_file] ->
  read_lines host input_file = inl lines ->
  open_output host output_file = inl tt ->
  Forall (fun brand => exists answer,
              result (get_website brand) = Return answer)
         (batch lines) ->
  open_upload host output_file = inl tt ->
  discord_reply host webhook_url output_file = Return (status, text) ->
  outcome_of main = inl tt
  /\ (exists rows,
         written (actions main) = ["brand"; "website"; "source"] :: rows
         /\ Forall2 row_of (batch lines) rows)
  /\ slept (actions main) = 3 * List.length (batch lines)
  /\ uploads (actions main)
     = [OpenUpload output_file;
        Post webhook_url output_file "CSV done processing: "].
Proof.
  intros Hargv Hread Hopen Hanswers Hupload Hreply.
  destruct (main_running prog input_file output_file lines Hargv Hread Hopen)
    as [-> ->].
  destruct (write_rows_shape (batch lines) 1 (List.length (batch lines)))
    as (finished & rest & Hsplit & Hrows & Hslept & Hup & _ & Hend).
  destruct (send_csv_to_discord_uploads webhook_url output_file
              "CSV done processing: " Hupload status text Hreply)
    as (Hsent & Hsent_rows & Hsent_slept & _ & Hsent_up).
  destruct (outcome_of (write_rows 1 _ _)) as [[]|f].
  - subst rest. rewrite app_nil_r in Hsplit. subst finished.
    split; [exact Hsent|].
    match goal with
    | |- context [written (_ :: _ :: _ :: ?t)] =>
        destruct (opening_projections input_file output_file t)
          as (-> & -> & -> & _)
    end.
    rewrite written_app, slept_app, uploads_app.
    rewrite Hsent_rows, Hsent_slept, Hsent_up, Hslept, Hup, app_nil_r.
    split; [|split].
    + eexists. split; [reflexivity|exact Hrows].
    + lia.
    + reflexivity.
  - destruct Hend as (brand & later & e & -> & _ & Hraise).
    rewrite Hsplit in Hanswers. apply Forall_app in Hanswers as [_ Hrest].
    apply Forall_inv in Hrest as [answer Hanswer].
    rewrite Hraise in Hanswer. discriminate Hanswer.
Qed.

(** X21: an exception of [get_website] ends the batch.  [main] ends with
    that exception; the header and the rows of the brands before the
    failing one are written, and nothing is uploaded. *)
Theorem main_aborts
        (prog input_file output_file brand : string)
        (lines before later : list string) (e : exn) :
  argv host = [prog; input_file; output_file] ->
  read_lines host input_file = inl lines ->
  open_output host output_file = inl tt ->
  batch lines = before ++ brand :: later ->
  Forall (fun earlier => exists answer,
              result (get_website earlier) = Return answer)
         before ->
  result (get_website brand) = Raise e ->
  outcome_of main = inr (Uncaught e)
  /\ (exists rows,
         written (actions main) = ["brand"; "website"; "source"] :: rows
         /\ Forall2 row_of before rows)
  /\ uploads (actions main) = [].
Proof.
  intros Hargv Hread Hopen Hbatch Hbefore Hraise.
  destruct (main_running prog input_file output_file lines Hargv Hread Hopen)
    as [-> ->].
  destruct (write_rows_shape (batch lines) 1 (List.length (batch lines)))
    as (finished & rest & Hsplit & Hrows & _ & Hup & _ & Hend).
  assert (Hstop : finished = before
                  /\ outcome_of (write_rows 1 (List.length (batch lines))
                                            (batch lines))
                     = inr (Uncaught e)).
  { destruct (outcome_of (write_rows 1 _ _)) as [[]|f].
    - subst rest. rewrite app_nil_r in Hsplit.
      rewrite Hbatch in Hsplit. subst finished.
      apply Forall2_app_inv_l in Hrows
        as (rows1 & rows2 & _ & Hrow & _).
      inversion Hrow as [|? row ? ? (website & source & Hanswer & _)]; subst.
      rewrite Hraise in Hanswer. discriminate Hanswer.
    - destruct Hend as (failing & later' & e' & -> & -> & Hfailing).
      rewrite Hbatch in Hsplit.
      assert (Hanswered : Forall (fun b => exists answer,
                             result (get_website b) = Return answer)
                                 finished).
      { clear - Hrows. induction Hrows as [|b row ? ? Hrow _ IH];
          constructor; [|exact IH].
        destruct Hrow as (website & source & H & _). eauto. }
      clear - Hsplit Hbefore Hanswered Hraise Hfailing.
      revert finished Hsplit Hanswered.
      induction Hbefore as [|b before [answer Hb] _ IH];
        intros [|b' finished] Hsplit Hanswered.
      + injection Hsplit as -> _. rewrite Hraise in Hfailing.
        injection Hfailing as ->. auto.
      + injection Hsplit as -> _. apply Forall_inv in Hanswered as [a Ha].
        rewrite Hraise in Ha. discriminate Ha.
      + injection Hsplit as -> _. rewrite Hfailing in Hb. discriminate Hb.
      + injection Hsplit as -> Hsplit. apply Forall_inv_tail in Hanswered.
        destruct (IH finished Hsplit Hanswered) as [-> He].
        auto.
  }
  destruct Hstop as [-> Hstop]. rewrite Hstop, app_nil_r.
  split; [reflexivity|].
  match goal with
  | |- context [written (_ :: _ :: _ :: ?t)] =>
      destruct (opening_projections input_file output_file t)
        as (-> & _ & -> & _)
  end.
  rewrite Hup. split; [|reflexivity].
  eexists. split; [reflexivity|exact Hrows].
Qed.

(** X22: the brands of a batch are the stripped forms of the lines that
    are not blank, each listed once. *)
Theorem batch_brands (lines : list string) :
  set_semantics ->
  NoDup (batch lines)
  /\ forall brand,
       In brand (batch lines)
       <-> brand <> EmptyString
           /\ exists line, In line lines /\ PyStr.strip line = brand.
Proof.
  intros Hset. destruct (Hset (stripped_lines lines)) as [Hnodup Hin].
  split; [exact Hnodup|]. intros brand. unfold batch. rewrite Hin.
  unfold stripped_lines. rewrite in_map_iff. split.
  - intros (line & <- & Hline). apply filter_In in Hline as [Hline Hfull].
    split; [|eauto]. intros Hempty. rewrite Hempty in Hfull.
    discriminate Hfull.
  - intros (Hfull & line & Hline & <-). exists line.
    split; [reflexivity|]. apply filter_In. split; [exact Hline|].
    destruct (PyStr.strip line); [contradiction|reflexivity].
Qed.

(** X23: a run of [main] makes at most four requests per brand of the
    batch, and sleeps three seconds for every row it wrote after the
    header. *)
Theorem main_budget (prog input_file output_file : string)
        (lines : list string) :
  argv host = [prog; input_file; output_file] ->
  read_lines host input_file = inl lines ->
  List.length (asked (actions main)) <= 4 * List.length (batch lines)
  /\ slept (actions main) = 3 * (List.length (written (actions main)) - 1).
Proof.
  intros Hargv Hread.
  destruct (open_output host output_file) as [[]|msg] eqn:Hopen.
  - destruct (main_running prog input_file output_file lines
                Hargv Hread Hopen) as [_ ->].
    match goal with
    | |- context [written (_ :: _ :: _ :: ?t)] =>
        destruct (opening_projections input_file output_file t)
          as (-> & -> & _ & ->)
    end.
    rewrite asked_app, slept_app, written_app.
    destruct (write_rows_shape (batch lines) 1 (List.length (batch lines)))
      as (finished & rest & _ & Hrows & -> & _ & Hask & _).
    apply Forall2_length in Hrows.
    replace (asked match outcome_of _ with inl _ => _ | inr _ => [] end)
      with (@nil event).
    replace (slept match outcome_of _ with inl _ => _ | inr _ => [] end)
      with 0.
    replace (written match outcome_of _ with inl _ => _ | inr _ => [] end)
      with (@nil (list string)).
    + rewrite !app_nil_r. cbn [List.length]. lia.
    + destruct (outcome_of _); [|reflexivity].
      symmetry. apply send_csv_to_discord_quiet.
    + destruct (outcome_of _); [|reflexivity].
      symmetry. apply send_csv_to_discord_quiet.
    + destruct (outcome_of _); [|reflexivity].
      symmetry. apply send_csv_to_discord_quiet.
  - rewrite (main_unwritable prog input_file output_file msg lines
               Hargv Hread Hopen).
    cbn. lia.
Qed.

(** X24: [send_csv_to_discord] uploads once.  Whatever status comes back
    it returns normally, and the line it prints is the success line exactly
    for status 204.  A file that does not open ends it before the upload,
    and an exception of the upload comes out of it. *)
Theorem send_csv_to_discord_outcomes (url path message : string) :
  (forall status text,
      open_upload host path = inl tt ->
      discord_reply host url path = Return (status, text) ->
      exists line,
        send_csv_to_discord url path message
        = (inl tt, [OpenUpload path; Post url path message; Print line])
        /\ (line = "CSV sent to Discord successfully." <-> status = 204))
  /\ (forall msg,
         open_upload host path = inr msg ->
         send_csv_to_discord url path message
         = (inr (OSError msg), [OpenUpload path]))
  /\ (forall e,
         open_upload host path = inl tt ->
         discord_reply host url path = Raise e ->
         send_csv_to_discord url path message
         = (inr (Uncaught e), [OpenUpload path; Post url path message])).
Proof.
  unfold send_csv_to_discord, os_call, and_then, act.
  split; [|split].
  - intros status text -> ->.
    destruct (status =? 204) eqn:Hstatus; eexists; (split; [reflexivity|]).
    + apply Nat.eqb_eq in Hstatus.
      split; intros _; [exact Hstatus|reflexivity].
    + apply Nat.eqb_neq in Hstatus.
      split; [discriminate|]. intros H204. destruct (Hstatus H204).
  - intros msg ->. reflexivity.
  - intros e -> ->. reflexivity.
Qed.

End Model.

(* ================================================================= *)
(** ** The statements at concrete inputs *)





(** C9 at a three-letter brand. *)
Lemma short_slug_full_match_witness :
  brand_slug "I.B.M." = "ibm"
  /\ urlparse_netloc Samples.accept_all "https://www.ibm.com/us-en"
     = Return "www.ibm.com"
  /\ PyStr.mem "@" "www.ibm.com" = false
  /\ PyStr.mem ":" "www.ibm.com" = false
  /\ PyStr.take 6 (brand_slug "I.B.M.") = brand_slug "I.B.M."
  /\ exists accepted,
       _looks_official Samples.accept_all "https://www.ibm.com/us-en" "I.B.M."
       = Return accepted
       /\ (PyStr.mem "@" "www.ibm.com" = false ->
           PyStr.mem ":" "www.ibm.com" = false ->
           let host := PyStr.lower "www.ibm.com" in
           let domain :=
             if PyStr.startswith host "www." then PyStr.drop 4 host
             else host in
           accepted = true
           <-> PyStr.endswith host ".ru" = false
               /\ (forall bad,
                      In bad EXCLUDE_DOMAINS ->
                      PyStr.endswith domain bad = false)
               /\ exists pre post,
                    domain = (pre ++ brand_slug "I.B.M." ++ post)%string).
Proof.
  split; [reflexivity|]. split; [reflexivity|].
  split; [reflexivity|]. split; [reflexivity|].
  apply (short_slug_full_match Samples.accept_all
           "https://www.ibm.com/us-en" "I.B.M.").
  vm_compute. split; repeat constructor.
Defined.

(** C9 as stated fails twice: [_looks_official] raises on a URL with an
    unclosed bracket, and with user information before the host it accepts
    a URL whose host does not contain the slug. *)
Lemma short_slug_counterexample :
  brand_slug "I.B.M." = "ibm"
  /\ _looks_official Samples.accept_all "http://[::1/index.html" "I.B.M."
     = Raise (ValueError "Invalid IPv6 URL")
  /\ urlparse_netloc Samples.accept_all "https://ibm@evil.example/"
     = Return ("ibm@" ++ "evil.example")%string
  /\ PyStr.contains "ibm" "evil.example" = false
  /\ _looks_official Samples.accept_all "https://ibm@evil.example/" "I.B.M."
     = Return true.
Proof. repeat split. Qed.



(** C3 as stated fails: the first row whose header mentions a website links
    to a social network, which [_looks_official] rejects, and the adapter
    still answers with the link of the second such row. *)
Lemma wikipedia_later_row_counterexample :
  let page := Samples.two_website_rows in
  let world := Samples.encyclopedia_only page in
  exists infobox row href,
    find_class "table" "infobox" page = Some infobox
    /\ List.find is_website_row (find_all "tr" infobox) = Some row
    /\ first_link row = Some href
    /\ _looks_official Samples.accept_all href "Acme Tools" = Return false
    /\ result (fetch_wikipedia_site Samples.accept_all world "Acme Tools")
       = Return (Some "https://www.acmetools.com")
    /\ result (fetch_wikipedia_site Samples.accept_all world "Acme Tools")
       <> Return None.
Proof.
  cbv zeta. do 3 eexists.
  split; [reflexivity|]. split; [reflexivity|]. split; [reflexivity|].
  split; [reflexivity|]. split; [reflexivity|].
  vm_compute. discriminate.
Qed.

(** C3 as amended, on the same page: the first website row is passed over
    and the second is returned. *)
Lemma wikipedia_first_accepted_row_witness :
  result (fetch_wikipedia_site Samples.accept_all
            (Samples.encyclopedia_only Samples.two_website_rows)
            "Acme Tools")
  = Return (Some "https://www.acmetools.com").
Proof.
  pose (founded := Samples.row "Founded" [NavigableString "1949"]).
  pose (social :=
          Samples.row " Website "
            [Samples.link "https://www.facebook.com/acmetools" "Facebook"]).
  pose (anchor := Samples.link "https://www.acmetools.com" "acmetools.com").
  pose (official := Samples.row "Official website" [anchor]).
  pose (infobox := Tag "table" ["infobox"; "vcard"] []
                       [founded; social; official]).
  refine (proj1 (proj1 (wikipedia_first_accepted_row Samples.accept_all
            (Samples.encyclopedia_only Samples.two_website_rows)
            "Acme Tools" 7 [] Samples.two_website_rows infobox
            eq_refl eq_refl eq_refl)
            [founded; social] official []
            [Tag "th" [] [] [NavigableString "Official website"];
             NavigableString "Official website";
             Tag "td" [] [] [anchor]]
            anchor [NavigableString "acmetools.com"]
            "https://www.acmetools.com"
            eq_refl _ eq_refl eq_refl _ eq_refl eq_refl) eq_refl eq_refl).
  - constructor; [left; reflexivity|].
    constructor; [|constructor].
    right; right. exists "https://www.facebook.com/acmetools".
    split; [reflexivity|]. right. reflexivity.
  - repeat (constructor; [reflexivity|]). constructor.
Defined.

(** C2 at a world whose search provider fails. *)
Lemma search_error_propagates_witness :
  ddgs_reply Samples.search_down (ddg_query "Acme Tools")
  = Raise (ProviderError "202 Ratelimit")
  /\ result (fetch_duckduckgo_site Samples.accept_all Samples.search_down
               "Acme Tools")
     = Raise (ProviderError "202 Ratelimit")
  /\ result (get_website Samples.accept_all Samples.search_down "Acme Tools")
     = Raise (ProviderError "202 Ratelimit").
Proof.
  split; [reflexivity|].
  destruct (search_error_propagates Samples.accept_all Samples.search_down
              "Acme Tools" (ProviderError "202 Ratelimit") eq_refl)
    as [Hadapter Hresolver].
  split; [exact Hadapter|].
  apply (Hresolver None None); reflexivity.
Defined.

(** The scenario of C5: every source has an answer, the knowledge base
    wins and is the only one asked. *)
Lemma get_website_priority_witness :
  result (get_website Samples.accept_all Samples.all_answer "Acme Tools")
  = Return (Some "https://acmetools.com", "wikidata")
  /\ trace (get_website Samples.accept_all Samples.all_answer "Acme Tools")
     = [WikidataRequest (wikidata_query "Acme Tools")].
Proof.
  refine (proj1 (get_website_priority Samples.accept_all Samples.all_answer
                   "Acme Tools" "https://acmetools.com" _) eq_refl).
  discriminate.
Defined.

(** C6 when no source answers. *)
Lemma get_website_not_found_iff_absent_witness :
  result (get_website Samples.accept_all Samples.silent "Acme Tools")
  = Return (None, "not_found").
Proof.
  apply (proj1 (proj2 (get_website_not_found_iff_absent
                         Samples.accept_all Samples.silent "Acme Tools")));
    reflexivity.
Defined.

(** C10 when the knowledge base answers with an empty string: the
    encyclopedia is asked next and its answer is returned. *)
Lemma empty_string_is_absent_witness :
  result (fetch_wikidata_site Samples.empty_kb_value "Acme Tools")
  = Return (Some EmptyString)
  /\ result (get_website Samples.accept_all Samples.empty_kb_value
               "Acme Tools")
     = Return (Some "https://www.acmetools.com", "wikipedia")
  /\ trace (get_website Samples.accept_all Samples.empty_kb_value
              "Acme Tools")
     = [WikidataRequest (wikidata_query "Acme Tools");
        WikipediaSearchRequest "Acme Tools"; WikipediaParseRequest 7].
Proof.
  split; [reflexivity|].
  apply (proj1 (proj2 (empty_string_is_absent
                         Samples.accept_all Samples.empty_kb_value
                         "Acme Tools"))
           (Some EmptyString) (Some "https://www.acmetools.com") None);
    reflexivity.
Defined.

(** One website row, two anchors: the first is rejected and the second is
    never looked at. *)
Example second_anchor_not_tried :
  result (fetch_wikipedia_site Samples.accept_all
            (Samples.encyclopedia_only Samples.two_anchors_one_row)
            "Acme Tools")
  = Return None.
Proof. reflexivity. Qed.

(** A row nested in a website row is a row of its own: it is tried after
    the row that holds it, and its link is returned. *)
Example nested_row_is_tried :
  result (fetch_wikipedia_site Samples.accept_all
            (Samples.encyclopedia_only Samples.nested_table)
            "Acme Tools")
  = Return (Some "https://www.acmetools.com").
Proof. reflexivity. Qed.

(** The text of a style sheet inside a header is no text of the header. *)
Example style_sheet_is_no_header_text :
  result (fetch_wikipedia_site Samples.accept_all
            (Samples.encyclopedia_only Samples.styled_header)
            "Acme Tools")
  = Return None.
Proof. reflexivity. Qed.

(** The network location keeps user information and port, and so does the
    domain that [_looks_official] tests. *)
Example netloc_keeps_port :
  urlparse_netloc Samples.accept_all "https://shop@www.example.com:8443/a?b#c"
  = Return "shop@www.example.com:8443".
Proof. reflexivity. Qed.

(** A bracketed host is accepted or refused by the library's validation;
    an unbalanced bracket is always refused. *)
Example unbalanced_bracket_raises (check : string -> bool) :
  _looks_official check "http://[::1/index.html" "Acme Tools"
  = Raise (ValueError "Invalid IPv6 URL").
Proof. reflexivity. Qed.

(* ================================================================= *)
(** ** Further statements at concrete inputs *)

(** X3 at a brand with a long slug: the key is [samsun]. *)
Lemma looks_official_accepts_iff_witness :
  urlparse_netloc Samples.accept_all "https://www.samsung.com/us/"
  = Return "www.samsung.com"
  /\ exists accepted,
       _looks_official Samples.accept_all "https://www.samsung.com/us/"
                       "Samsung Electronics" = Return accepted
       /\ (accepted = true
           <-> ~ (exists pre,
                     PyStr.lower "www.samsung.com" = (pre ++ ".ru")%string)
               /\ ~ (exists bad pre,
                        In bad EXCLUDE_DOMAINS
                        /\ PyStr.drop 4 (PyStr.lower "www.samsung.com")
                           = (pre ++ bad)%string)
               /\ exists pre post,
                    PyStr.drop 4 (PyStr.lower "www.samsung.com")
                    = (pre ++ PyStr.take 6 (brand_slug "Samsung Electronics")
                           ++ post)%string).
Proof.
  split; [reflexivity|].
  apply (looks_official_accepts_iff Samples.accept_all
           "https://www.samsung.com/us/" "Samsung Electronics"
           "www.samsung.com").
  reflexivity.
Defined.

(** X4 at a URL without a scheme. *)
Lemma no_netloc_rejected_witness :
  urlparse_netloc Samples.accept_all "www.acmetools.com" = Return EmptyString
  /\ brand_slug "Acme Tools" <> EmptyString
  /\ _looks_official Samples.accept_all "www.acmetools.com" "Acme Tools"
     = Return false.
Proof.
  split; [reflexivity|]. split; [discriminate|].
  apply (no_netloc_rejected Samples.accept_all
           "www.acmetools.com" "Acme Tools"); [reflexivity|discriminate].
Defined.

(** X5 at a URL with the brand in its path. *)
Lemma looks_official_ignores_path_witness :
  _looks_official Samples.accept_all "https://evil.example/acmetools"
                  "Acme Tools"
  = _looks_official Samples.accept_all "https://evil.example" "Acme Tools".
Proof.
  exact (looks_official_ignores_path Samples.accept_all true
           "evil.example" "acmetools" "Acme Tools" "/" eq_refl).
Defined.

(** X8 on the page with two website rows. *)
Lemma wikipedia_hit_is_official_witness :
  result (fetch_wikipedia_site Samples.accept_all
            (Samples.encyclopedia_only Samples.two_website_rows)
            "Acme Tools")
  = Return (Some "https://www.acmetools.com")
  /\ PyStr.startswith "https://www.acmetools.com" "http" = true
  /\ _looks_official Samples.accept_all "https://www.acmetools.com"
                     "Acme Tools" = Return true
  /\ "https://www.acmetools.com" <> EmptyString.
Proof.
  split; [reflexivity|].
  apply (wikipedia_hit_is_official Samples.accept_all
           (Samples.encyclopedia_only Samples.two_website_rows)
           "Acme Tools" "https://www.acmetools.com").
  reflexivity.
Defined.

(** X10 with three results: the first is rejected, the second returned. *)
Lemma duckduckgo_returns_first_accepted_witness :
  result (fetch_duckduckgo_site Samples.accept_all
            (BatchSamples.search_results
               ["https://www.facebook.com/acmetools";
                "https://www.acmetools.com/us";
                "https://acmetools.example"])
            "Acme Tools")
  = Return (Some "https://www.acmetools.com/us").
Proof.
  apply (proj2 (duckduckgo_returns_first_accepted Samples.accept_all
                  (BatchSamples.search_results
                     ["https://www.facebook.com/acmetools";
                      "https://www.acmetools.com/us";
                      "https://acmetools.example"])
                  "Acme Tools" "https://www.acmetools.com/us"
                  ["https://www.facebook.com/acmetools";
                   "https://www.acmetools.com/us";
                   "https://acmetools.example"] eq_refl)).
  exists ["https://www.facebook.com/acmetools"],
    ["https://acmetools.example"].
  split; [reflexivity|]. split; [|reflexivity].
  constructor; [reflexivity|constructor].
Defined.

(** X11 with two results on excluded domains. *)
Lemma duckduckgo_absent_iff_all_rejected_witness :
  result (fetch_duckduckgo_site Samples.accept_all
            (BatchSamples.search_results
               ["https://www.facebook.com/acmetools";
                "https://www.amazon.com/acmetools"])
            "Acme Tools")
  = Return None.
Proof.
  apply (proj2 (duckduckgo_absent_iff_all_rejected Samples.accept_all
                  (BatchSamples.search_results
                     ["https://www.facebook.com/acmetools";
                      "https://www.amazon.com/acmetools"])
                  "Acme Tools"
                  ["https://www.facebook.com/acmetools";
                   "https://www.amazon.com/acmetools"] eq_refl)).
  repeat (constructor; [reflexivity|]). constructor.
Defined.

(** X12 with a malformed second result. *)
Lemma duckduckgo_raises_iff_witness :
  result (fetch_duckduckgo_site Samples.accept_all
            (BatchSamples.search_results
               ["https://www.facebook.com/acmetools"; "http://[::1/"])
            "Acme Tools")
  = Raise (ValueError "Invalid IPv6 URL").
Proof.
  apply (proj2 (duckduckgo_raises_iff Samples.accept_all
                  (BatchSamples.search_results
                     ["https://www.facebook.com/acmetools"; "http://[::1/"])
                  "Acme Tools" (ValueError "Invalid IPv6 URL"))).
  right. exists ["https://www.facebook.com/acmetools"], "http://[::1/", [].
  split; [reflexivity|]. split; [|reflexivity].
  constructor; [reflexivity|constructor].
Defined.

(** X13 at the name of the C4 counterexample. *)
Lemma wikidata_query_cut_at_quote_witness :
  PyStr.forallb is_plain_char "Toys" = true
  /\ label_literal
       (wikidata_query ("Toys" ++ DQUOTE ++ "R" ++ DQUOTE ++ "Us"))
     = Some ("Toys", (("R" ++ DQUOTE ++ "Us") ++ query_tail)%string).
Proof.
  split; [reflexivity|].
  apply (wikidata_query_cut_at_quote "Toys" ("R" ++ DQUOTE ++ "Us")).
  reflexivity.
Defined.

(** X15 when the encyclopedia answers. *)
Lemma later_sources_are_filtered_witness :
  result (get_website Samples.accept_all Samples.empty_kb_value "Acme Tools")
  = Return (Some "https://www.acmetools.com", "wikipedia")
  /\ _looks_official Samples.accept_all "https://www.acmetools.com"
                     "Acme Tools" = Return true.
Proof.
  split; [reflexivity|].
  apply (later_sources_are_filtered Samples.accept_all
           Samples.empty_kb_value "Acme Tools"
           "https://www.acmetools.com" "wikipedia");
    [reflexivity|discriminate].
Defined.

(** X16 when the search provider is down. *)
Lemma get_website_raises_iff_witness :
  result (get_website Samples.accept_all Samples.search_down "Acme Tools")
  = Raise (ProviderError "202 Ratelimit").
Proof.
  apply (proj2 (get_website_raises_iff Samples.accept_all
                  Samples.search_down "Acme Tools"
                  (ProviderError "202 Ratelimit"))).
  exists None, None. repeat split.
Defined.

(** X17 with no argument. *)
Lemma main_usage_witness :
  main Samples.accept_all Samples.all_answer
       (BatchSamples.machine ["website_finder.py"] [] 204)
  = (inr (SystemExit 1), [Print usage]).
Proof.
  apply (main_usage Samples.accept_all Samples.all_answer
           (BatchSamples.machine ["website_finder.py"] [] 204)).
  discriminate.
Defined.

(** X18 with a missing input file. *)
Lemma main_file_errors_witness :
  main Samples.accept_all Samples.all_answer BatchSamples.missing_input
  = (inr (OSError "No such file or directory"), [ReadLines "brands.txt"]).
Proof.
  apply (proj1 (main_file_errors Samples.accept_all Samples.all_answer
                  BatchSamples.missing_input
                  "website_finder.py" "brands.txt" "output.csv"
                  "No such file or directory" eq_refl)).
  reflexivity.
Defined.

(** X20 with a Discord reply of status 401. *)
Lemma main_completes_witness :
  let host := BatchSamples.machine BatchSamples.args
                                   BatchSamples.brands_txt 401 in
  batch host BatchSamples.brands_txt = ["Acme Tools"; "Sephora"]
  /\ outcome_of (main Samples.accept_all Samples.all_answer host) = inl tt
  /\ (exists rows,
         written (actions (main Samples.accept_all Samples.all_answer host))
         = ["brand"; "website"; "source"] :: rows
         /\ Forall2 (row_of Samples.accept_all Samples.all_answer)
                    (batch host BatchSamples.brands_txt) rows)
  /\ slept (actions (main Samples.accept_all Samples.all_answer host))
     = 3 * List.length (batch host BatchSamples.brands_txt)
  /\ uploads (actions (main Samples.accept_all Samples.all_answer host))
     = [OpenUpload "output.csv";
        Post (webhook_url host) "output.csv" "CSV done processing: "].
Proof.
  cbv zeta. split; [reflexivity|].
  apply (main_completes Samples.accept_all Samples.all_answer
           (BatchSamples.machine BatchSamples.args
                                 BatchSamples.brands_txt 401)
           "website_finder.py" "brands.txt" "output.csv" "Unauthorized"
           BatchSamples.brands_txt 401);
    try reflexivity.
  repeat (constructor; [eexists; reflexivity|]). constructor.
Defined.

(** X21 when the web search fails on the second brand. *)
Lemma main_aborts_witness :
  let host := BatchSamples.machine BatchSamples.args
                                   BatchSamples.brands_txt 204 in
  let world := BatchSamples.search_down_after_acme in
  outcome_of (main Samples.accept_all world host)
  = inr (Uncaught (ProviderError "202 Ratelimit"))
  /\ (exists rows,
         written (actions (main Samples.accept_all world host))
         = ["brand"; "website"; "source"] :: rows
         /\ Forall2 (row_of Samples.accept_all world) ["Acme Tools"] rows)
  /\ uploads (actions (main Samples.accept_all world host)) = [].
Proof.
  cbv zeta.
  apply (main_aborts Samples.accept_all BatchSamples.search_down_after_acme
           (BatchSamples.machine BatchSamples.args
                                 BatchSamples.brands_txt 204)
           "website_finder.py" "brands.txt" "output.csv" "Sephora"
           BatchSamples.brands_txt ["Acme Tools"] []
           (ProviderError "202 Ratelimit"));
    try reflexivity.
  constructor; [eexists; reflexivity|constructor].
Defined.

(** X22 on the sample file: two brands from four lines. *)
Lemma batch_brands_witness :
  let host := BatchSamples.machine BatchSamples.args
                                   BatchSamples.brands_txt 204 in
  NoDup (batch host BatchSamples.brands_txt)
  /\ forall brand,
       In brand (batch host BatchSamples.brands_txt)
       <-> brand <> EmptyString
           /\ exists line,
                In line BatchSamples.brands_txt /\ PyStr.strip line = brand.
Proof.
  cbv zeta.
  apply (batch_brands
           (BatchSamples.machine BatchSamples.args
                                 BatchSamples.brands_txt 204)
           BatchSamples.brands_txt).
  intros l. split; [apply NoDup_nodup|].
  intros x. apply nodup_In.
Defined.

(** X23 on the run that fails at the second brand. *)
Lemma main_budget_witness :
  let host := BatchSamples.machine BatchSamples.args
                                   BatchSamples.brands_txt 204 in
  let world := BatchSamples.search_down_after_acme in
  List.length (asked (actions (main Samples.accept_all world host)))
  <= 4 * List.length (batch host BatchSamples.brands_txt)
  /\ slept (actions (main Samples.accept_all world host))
     = 3 * (List.length
              (written (actions (main Samples.accept_all world host))) - 1).
Proof.
  cbv zeta.
  apply (main_budget Samples.accept_all BatchSamples.search_down_after_acme
           (BatchSamples.machine BatchSamples.args
                                 BatchSamples.brands_txt 204)
           "website_finder.py" "brands.txt" "output.csv"
           BatchSamples.brands_txt); reflexivity.
Defined.

(** X9 when the search finds no page. *)
Lemma wikipedia_absent_cases_witness :
  fetch_wikipedia_site Samples.accept_all Samples.silent "Acme Tools"
  = (Return None, [WikipediaSearchRequest "Acme Tools"]).
Proof.
  apply (proj1 (wikipedia_absent_cases Samples.accept_all Samples.silent
                  "Acme Tools")).
  right. reflexivity.
Defined.

(** X24 with a reply of status 401: the run goes on, the refusal is
    printed. *)
Lemma send_csv_to_discord_outcomes_witness :
  exists line,
    send_csv_to_discord
      (BatchSamples.machine BatchSamples.args BatchSamples.brands_txt 401)
      "https://discord.com/api/webhooks/None/None" "output.csv"
      "CSV done processing: "
    = (inl tt,
       [OpenUpload "output.csv";
        Post "https://discord.com/api/webhooks/None/None" "output.csv"
             "CSV done processing: ";
        Print line])
    /\ (line = "CSV sent to Discord successfully." <-> 401 = 204).
Proof.
  apply (proj1 (send_csv_to_discord_outcomes
                  (BatchSamples.machine BatchSamples.args
                                        BatchSamples.brands_txt 401)
                  "https://discord.com/api/webhooks/None/None" "output.csv"
                  "CSV done processing: ")
           401 "Unauthorized"); reflexivity.
Defined.
